(** * Session establishment of the Transcribe streaming client

    A shallow embedding of [amazon_transcribe/client.py]:
    [TranscribeStreamingClient.start_stream_transcription], its helpers
    [_create_audio_stream] and [_extract_signature], and the medical
    variant [TranscribeMedicalStreamingClient.start_stream_transcription].

    Python values are modelled as follows: [str] as [string], [bytes] as
    [list byte], [int] as [Z], a raised exception as a value of [exn]
    (class name and message), the headers mapping as a [gmap string string],
    and the awaited calls on the collaborators as one sequential pipeline
    in a state-and-exception monad whose state records the calls made on
    the outside world. *)

From Stdlib Require Import ZArith String Ascii List Bool Lia DecimalString.
From Stdlib.Strings Require Import Byte.
From stdpp Require Import base option gmap strings list.

Local Open Scope string_scope.
Local Open Scope list_scope.
Local Open Scope Z_scope.

(** ** Exceptions and results *)

(** A raised Python exception: the name of its class and its message. *)
Record exn := Exn { exn_class : string; exn_msg : string }.

Inductive result (A : Type) : Type :=
| Raise (e : exn)
| Return (a : A).
Arguments Raise {A} e.
Arguments Return {A} a.

Definition bytes := list byte.

(** ** Text helpers: [re.split] on a literal pattern, [binascii.unhexlify] *)

Module Text.

Fixpoint drop (n : nat) (s : string) : string :=
  match n, s with
  | O, _ => s
  | S _, EmptyString => EmptyString
  | S k, String _ s' => drop k s'
  end.

(** [re.split(pat, s)] for a pattern without metacharacters: the scan
    goes left to right, a match at the current position closes the
    current piece and resumes after the match, any other character joins
    the current piece.  [fuel] bounds the number of scan steps. *)
Fixpoint re_split_go (fuel : nat) (pat s cur : string) : list string :=
  match fuel with
  | O => [cur +:+ s]
  | S fuel' =>
      match s with
      | EmptyString => [cur]
      | String c s' =>
          if String.prefix pat s
          then cur :: re_split_go fuel' pat (drop (String.length pat) s) ""
          else re_split_go fuel' pat s' (cur +:+ String c "")
      end
  end.

Definition re_split (pat s : string) : list string :=
  re_split_go (String.length s) pat s "".

(** The Python subscript [l[-1]] on a list of strings that is known to
    be non-empty ([re.split] always returns at least one piece). *)
Definition last_piece (l : list string) : string := List.last l "".

(** [occurs pat s]: [pat] is found somewhere in [s]. *)
Fixpoint occurs (pat s : string) : bool :=
  String.prefix pat s
  || match s with
     | EmptyString => false
     | String _ s' => occurs pat s'
     end.

(** The text that follows the last occurrence of [pat] in [s], if any. *)
Fixpoint after_last (pat s : string) : option string :=
  match s with
  | EmptyString => None
  | String _ s' =>
      match after_last pat s' with
      | Some r => Some r
      | None =>
          if String.prefix pat s then Some (drop (String.length pat) s)
          else None
      end
  end.

(** Value of a hexadecimal digit, as [_PyLong_DigitValue] restricted to
    the values below 16. *)
Definition hex_digit (c : ascii) : option N :=
  let n := N_of_ascii c in
  if ((48 <=? n) && (n <=? 57))%N then Some (n - 48)%N
  else if ((97 <=? n) && (n <=? 102))%N then Some (n - 87)%N
  else if ((65 <=? n) && (n <=? 70))%N then Some (n - 55)%N
  else None.

Definition byte_of_N (n : N) : byte :=
  match Byte.of_N n with Some b => b | None => x00 end.

(** The decoding loop of [binascii.a2b_hex] over pairs of digits;
    [None] when a character is not a hexadecimal digit. *)
Fixpoint hex_pairs (s : string) : option bytes :=
  match s with
  | EmptyString => Some []
  | String _ EmptyString => None
  | String hi (String lo s') =>
      match hex_digit hi, hex_digit lo, hex_pairs s' with
      | Some h, Some l, Some bs => Some (byte_of_N (16 * h + l) :: bs)
      | _, _, _ => None
      end
  end.

Fixpoint is_ascii (s : string) : bool :=
  match s with
  | EmptyString => true
  | String c s' => (N_of_ascii c <? 128)%N && is_ascii s'
  end.

Definition BinasciiError (msg : string) : exn := Exn "binascii.Error" msg.
Definition ValueError (msg : string) : exn := Exn "ValueError" msg.

(** [binascii.unhexlify] on a [str] argument: the argument has to be
    ASCII, then of even length, then made of hexadecimal digits. *)
Definition unhexlify (s : string) : result bytes :=
  if negb (is_ascii s)
  then Raise (ValueError "string argument should contain only ASCII characters")
  else if Nat.odd (String.length s)
  then Raise (BinasciiError "Odd-length string")
  else match hex_pairs s with
       | Some bs => Return bs
       | None => Raise (BinasciiError "Non-hexadecimal digit found")
       end.

(** [str(n)] for a Python [int], as used by the [%s] conversion. *)
Definition str_of_int (n : Z) : string := NilZero.string_of_int (Z.to_int n).

End Text.

(** ** The outside world and the monad of effects *)

(** The streaming body of a request is an object with identity and a
  [close] method; it is represented by a handle. *)
Definition handle := nat.

(** Calls made on the collaborators, in the order in which they happen,
  and the construction of the objects handed back to the caller. *)
Inductive event : Type :=
| EvResolveEndpoint (region : string)
| EvGetCredentials
| EvMakeRequest (uri method : string) (hdrs : list (string * string)) (body : handle)
| EvResolveResponse
| EvBodyClose (body : handle)
| EvConsumeBody
| EvNewAudioStream (input : handle)
| EvNewEventStream.

Record world := World {
trace : list event;      (* oldest call first *)
closed : gset handle     (* bodies on which [close] was called *)
}.

Definition M (A : Type) : Type := world → world * result A.

Definition run {A} (m : M A) (w : world) : world * result A := m w.

#[global] Instance M_ret : MRet M := λ A a w, (w, Return a).

#[global] Instance M_bind : MBind M := λ A B f m w,
match m w with
| (w', Return a) => f a w'
| (w', Raise e) => (w', Raise e)
end.

(** [raise e] *)
Definition raise {A} (e : exn) : M A := λ w, (w, Raise e).

(** A call without effect on the world whose callee may raise. *)
Definition call {A} (r : result A) : M A := λ w, (w, r).

Definition emit (ev : event) : M unit :=
λ w, (World (trace w ++ [ev]) (closed w), Return tt).

(** [await f(...)]: the call is made (and recorded), then its outcome is
  delivered. *)
Definition await {A} (ev : event) (r : result A) : M A :=
emit ev ;; call r.

(** [body.close()] *)
Definition close (h : handle) : M unit :=
λ w, (World (trace w ++ [EvBodyClose h]) ({[h]} ∪ closed w), Return tt).

(** ** Data of the client module *)

(** The prepared request, before and after signing. *)
Record PreparedRequest := {
uri : string;
method : string;
headers : gmap string string;
body : handle
}.

(** [headers.get(key, default)] and [headers.as_list()]. *)
Definition headers_get (h : gmap string string) (key dflt : string) : string :=
default dflt (h !! key).
Definition as_list (h : gmap string string) : list (string * string) :=
map_to_list h.

(** The resolved response: status line and headers, without the body. *)
Record Response := {
status_code : Z;
response_headers : gmap string string
}.

(** Keyword arguments of [TranscribeStreamingClient.start_stream_transcription]. *)
Record StartArgs := {
language_code : string;
media_sample_rate_hz : Z;
media_encoding : string;
vocabulary_name : option string;
session_id : option string;
vocab_filter_method : option string;
vocab_filter_name : option string;
show_speaker_label : option bool;
enable_channel_identification : option bool;
number_of_channels : option Z
}.

(** Keyword arguments of the medical variant: the same ones and two more
  required ones. *)
Record MedicalArgs := {
base_args : StartArgs;
audio_type : string;
specialty : string
}.

Record EventSigner := { signer_service : string; signer_region : string }.

Definition RuntimeError (msg : string) : exn := Exn "RuntimeError" msg.

Section Model.

(** Values the client only passes from one collaborator to the next. *)
Context {Endpoint Credentials Pending Parsed : Type}.

(** [Args] are the keyword arguments of the operation and [Shape] is the
    request shape built from them. *)
Context {Args Shape : Type}.

(** The client object with the collaborators it calls. *)
Record Client := {
  service_name : string;
  region : string;
  _event_signer : EventSigner;
  (* the request shape class, called with the keyword arguments *)
  new_request : Args → result Shape;
  (* self._endpoint_resolver.resolve *)
  resolve : string → result Endpoint;
  (* self._serializer.serialize_start_stream_transcription_request(...).prepare() *)
  serialize : Endpoint → Shape → result PreparedRequest;
  (* self._credential_resolver.get_credentials *)
  get_credentials : result Credentials;
  (* SigV4RequestSigner(service, region).sign *)
  sign : string → string → PreparedRequest → Credentials → result PreparedRequest;
  (* AwsCrtHttpSessionManager(self._eventloop).make_request *)
  make_request : string → string → list (string * string) → handle → result Pending;
  (* response.resolve_response, response.consume_body *)
  resolve_response : Pending → result Response;
  consume_body : Pending → result bytes;
  (* self._response_parser *)
  parse_exception : Response → bytes → exn;
  parse_start_stream_transcription_response : Response → Pending → result Parsed
}.

Record AudioStream := {
  input_stream : handle;
  event_signer : EventSigner;
  initial_signature : bytes;
  credential_resolver : result Credentials
}.

Record StartStreamTranscriptionEventStream := {
  audio_stream : AudioStream;
  response : Parsed
}.

(** The two constructors whose product is handed to the caller. *)
Definition new_AudioStream (a : AudioStream) : M AudioStream :=
  emit (EvNewAudioStream (input_stream a)) ;; mret a.

Definition new_EventStream (a : AudioStream) (p : Parsed)
  : M StartStreamTranscriptionEventStream :=
  emit EvNewEventStream ;; mret {| audio_stream := a; response := p |}.

End Model.

Arguments Client : clear implicits.
Arguments AudioStream : clear implicits.
Arguments StartStreamTranscriptionEventStream : clear implicits.

(** ** The rest of the package, as the constructors of the clients see it *)

Section PackageModel.

Context {Endpoint Credentials Pending Parsed Shape MShape Loop : Type}.

(** What [client.py] imports from the other modules of the package: the
    classes its constructors instantiate and the ones its operations call. *)
Record Package := {
  (* AWSCRTEventLoop().bootstrap *)
  pkg_eventloop : Loop;
  (* _TranscribeRegionEndpointResolver().resolve *)
  pkg_region_endpoint_resolver : string → result Endpoint;
  (* AwsCrtCredentialResolver(eventloop).get_credentials *)
  pkg_crt_credential_resolver : Loop → result Credentials;
  (* StartStreamTranscriptionRequest, StartMedicalStreamTranscriptionRequest *)
  pkg_request : StartArgs → result Shape;
  pkg_medical_request : MedicalArgs → result MShape;
  (* TranscribeStreamingSerializer(), TranscribeMedicalStreamingSerializer() *)
  pkg_serializer : Endpoint → Shape → result PreparedRequest;
  pkg_medical_serializer : Endpoint → MShape → result PreparedRequest;
  (* SigV4RequestSigner(service, region).sign *)
  pkg_signer : string → string → PreparedRequest → Credentials → result PreparedRequest;
  (* AwsCrtHttpSessionManager(eventloop).make_request *)
  pkg_session : Loop → string → string → list (string * string) → handle
                → result Pending;
  pkg_resolve_response : Pending → result Response;
  pkg_consume_body : Pending → result bytes;
  (* TranscribeStreamingResponseParser() *)
  pkg_parse_exception : Response → bytes → exn;
  pkg_parse_response : Response → Pending → result Parsed
}.

End PackageModel.

Arguments Package : clear implicits.

(** ** [class TranscribeStreamingClient] *)

Module TranscribeStreamingClient.
Section Methods.

Context {Endpoint Credentials Pending Parsed Args Shape : Type}.
Abbreviation Self := (Client Endpoint Credentials Pending Parsed Args Shape).
Abbreviation Stream := (StartStreamTranscriptionEventStream Credentials Parsed).

Definition _extract_signature (signed_request : PreparedRequest) : result bytes :=
  let auth := headers_get (headers signed_request) "Authorization" "" in
  let auth := Text.last_piece (Text.re_split "Signature=" auth) in
  Text.unhexlify auth.

Definition _create_audio_stream (self : Self) (signed_request : PreparedRequest)
  : M (AudioStream Credentials) :=
  initial_signature ← call (_extract_signature signed_request);
  new_AudioStream {|
    input_stream := body signed_request;
    event_signer := _event_signer self;
    initial_signature := initial_signature;
    credential_resolver := get_credentials self
  |}.

Definition start_stream_transcription (self : Self) (args : Args) : M Stream :=
  transcribe_streaming_request ← call (new_request self args);
  endpoint ← await (EvResolveEndpoint (region self)) (resolve self (region self));
  request ← call (serialize self endpoint transcribe_streaming_request);
  creds ← await EvGetCredentials (get_credentials self);
  signed_request ← call (sign self "transcribe" (region self) request creds);
  response ← await (EvMakeRequest (uri signed_request) (method signed_request)
                      (as_list (headers signed_request)) (body signed_request))
               (make_request self (uri signed_request) (method signed_request)
                  (as_list (headers signed_request)) (body signed_request));
  resolved_response ← await EvResolveResponse (resolve_response self response);
  let status_code := status_code resolved_response in
  if 400 <=? status_code then
    (* close before the body is consumed *)
    close (body signed_request);;
    body_bytes ← await EvConsumeBody (consume_body self response);
    raise (parse_exception self resolved_response body_bytes)
  else if negb (status_code =? 200) then
    raise (RuntimeError
             ("Unexpected status code encountered: " +:+ Text.str_of_int status_code))
  else
    parsed_response ← call (parse_start_stream_transcription_response
                              self resolved_response response);
    audio_stream ← _create_audio_stream self signed_request;
    new_EventStream audio_stream parsed_response.

End Methods.

Section Construction.

Context {Endpoint Credentials Pending Parsed Shape MShape Loop : Type}.

Definition __init__
    (pkg : Package Endpoint Credentials Pending Parsed Shape MShape Loop)
    (region : string)
    (endpoint_resolver : option (string → result Endpoint))
    (credential_resolver : option (result Credentials))
  : Client Endpoint Credentials Pending Parsed StartArgs Shape :=
  let endpoint_resolver :=
    match endpoint_resolver with
    | None => pkg_region_endpoint_resolver pkg
    | Some r => r
    end in
  let service_name := "transcribe" in
  let _event_signer :=
    {| signer_service := service_name; signer_region := region |} in
  let _eventloop := pkg_eventloop pkg in
  let credential_resolver :=
    match credential_resolver with
    | None => pkg_crt_credential_resolver pkg _eventloop
    | Some c => c
    end in
  {| service_name := service_name;
     region := region;
     _event_signer := _event_signer;
     new_request := pkg_request pkg;
     resolve := endpoint_resolver;
     serialize := pkg_serializer pkg;
     get_credentials := credential_resolver;
     sign := pkg_signer pkg;
     make_request := pkg_session pkg _eventloop;
     resolve_response := pkg_resolve_response pkg;
     consume_body := pkg_consume_body pkg;
     parse_exception := pkg_parse_exception pkg;
     parse_start_stream_transcription_response := pkg_parse_response pkg |}.

End Construction.
End TranscribeStreamingClient.

(** ** [class TranscribeMedicalStreamingClient(TranscribeStreamingClient)]

  The subclass installs its own serializer in [__init__] (here: the
  [serialize] field of its client record), builds a
  [StartMedicalStreamTranscriptionRequest] from its keyword arguments and
  inherits [_create_audio_stream] and [_extract_signature]. *)

Module TranscribeMedicalStreamingClient.
Section Methods.

Context {Endpoint Credentials Pending Parsed Shape : Type}.
Abbreviation Self := (Client Endpoint Credentials Pending Parsed MedicalArgs Shape).
Abbreviation Stream := (StartStreamTranscriptionEventStream Credentials Parsed).

Definition _create_audio_stream (self : Self) :=
  TranscribeStreamingClient._create_audio_stream self.

Definition start_stream_transcription (self : Self) (args : MedicalArgs) : M Stream :=
  transcribe_streaming_request ← call (new_request self args);
  endpoint ← await (EvResolveEndpoint (region self)) (resolve self (region self));
  request ← call (serialize self endpoint transcribe_streaming_request);
  creds ← await EvGetCredentials (get_credentials self);
  signed_request ← call (sign self "transcribe" (region self) request creds);
  response ← await (EvMakeRequest (uri signed_request) (method signed_request)
                      (as_list (headers signed_request)) (body signed_request))
               (make_request self (uri signed_request) (method signed_request)
                  (as_list (headers signed_request)) (body signed_request));
  resolved_response ← await EvResolveResponse (resolve_response self response);
  let status_code := status_code resolved_response in
  if 400 <=? status_code then
    close (body signed_request);;
    body_bytes ← await EvConsumeBody (consume_body self response);
    raise (parse_exception self resolved_response body_bytes)
  else if negb (status_code =? 200) then
    raise (RuntimeError
             ("Unexpected status code encountered: " +:+ Text.str_of_int status_code))
  else
    parsed_response ← call (parse_start_stream_transcription_response
                              self resolved_response response);
    audio_stream ← _create_audio_stream self signed_request;
    new_EventStream audio_stream parsed_response.

End Methods.

Section Construction.

Context {Endpoint Credentials Pending Parsed Shape MShape Loop : Type}.

(** The call of [__init__] of the superclass with the keyword arguments
    passed on as they are, then the serializer is replaced; the operation of the
    subclass builds the medical request shape. *)
Definition __init__
    (pkg : Package Endpoint Credentials Pending Parsed Shape MShape Loop)
    (kw_region : string)
    (kw_endpoint_resolver : option (string → result Endpoint))
    (kw_credential_resolver : option (result Credentials))
  : Client Endpoint Credentials Pending Parsed MedicalArgs MShape :=
  let super := TranscribeStreamingClient.__init__ pkg kw_region
                 kw_endpoint_resolver kw_credential_resolver in
  {| service_name := service_name super;
     region := region super;
     _event_signer := _event_signer super;
     new_request := pkg_medical_request pkg;
     resolve := resolve super;
     serialize := pkg_medical_serializer pkg;
     get_credentials := get_credentials super;
     sign := sign super;
     make_request := make_request super;
     resolve_response := resolve_response super;
     consume_body := consume_body super;
     parse_exception := parse_exception super;
     parse_start_stream_transcription_response :=
       parse_start_stream_transcription_response super |}.

End Construction.
End TranscribeMedicalStreamingClient.

(** ** Parts of the repository that the client module only calls *)

Module Modelled.


(** The request shape class [StartStreamTranscriptionRequest]
    (amazon_transcribe/model.py, missing here) as [client.py] uses and
    documents it: it is called with the ten keyword arguments of the
    operation and keeps them.  It checks no combination: the docstring of
    the operation leaves the speaker-label flag together with the
    channel-identification flag to the service, whose answer is a
    [BadRequestException]. *)
Definition StartStreamTranscriptionRequest (args : StartArgs) : result StartArgs :=
  Return args.

(** The double quote character and a JSON string literal. *)
Definition dquote : string := String (ascii_of_nat 34) "".
Definition quoted (s : string) : string := dquote +:+ s +:+ dquote.

Fixpoint after_first (pat s : string) : option string :=
  if String.prefix pat s then Some (Text.drop (String.length pat) s)
  else match s with
       | EmptyString => None
       | String _ s' => after_first pat s'
       end.

Fixpoint until_quote (s : string) : string :=
  match s with
  | EmptyString => EmptyString
  | String c s' =>
      if Ascii.eqb c (ascii_of_nat 34) then EmptyString
      else String c (until_quote s')
  end.

(** The string value of member [key] of a flat JSON object. *)
Definition json_member (key body : string) : option string :=
  until_quote <$> after_first (quoted key +:+ ":" +:+ dquote) body.

(** Modelled from the spec: [parse_exception] of the response parser
    (amazon_transcribe/deserialize.py, missing here).  The drained bytes are
    parsed "into a typed service error", its kind "derived from a
    service-defined error code embedded in" the body: the error class is
    the value of the member [__type] and its message the value of the
    member [Message]. *)
Definition parse_exception (resolved_response : Response) (body_bytes : bytes) : exn :=
  let text := string_of_list_byte body_bytes in
  Exn (default "UnknownServiceException" (json_member "__type" text))
      (default text (json_member "Message" text)).

End Modelled.

(** ** Instrumented fakes for the collaborators *)

Module Fake.

Definition plain_args : StartArgs := {|
  language_code := "en-US";
  media_sample_rate_hz := 16000;
  media_encoding := "pcm";
  vocabulary_name := None;
  session_id := None;
  vocab_filter_method := None;
  vocab_filter_name := None;
  show_speaker_label := None;
  enable_channel_identification := None;
  number_of_channels := None
|}.


Definition medical_args : MedicalArgs := {|
  base_args := plain_args;
  audio_type := "DICTATION";
  specialty := "PRIMARYCARE"
|}.

Definition unsigned_request : PreparedRequest := {|
  uri := "https://transcribestreaming.us-west-2.amazonaws.com/stream-transcription";
  method := "POST";
  headers := {[ "host" := "transcribestreaming.us-west-2.amazonaws.com" ]};
  body := 7%nat
|}.

(** The request signed with the given [Authorization] value, or left
    without that header. *)
Definition signed_with (authorization : option string) : PreparedRequest :=
  match authorization with
  | Some a => {| uri := uri unsigned_request; method := method unsigned_request;
                 headers := <[ "Authorization" := a ]> (headers unsigned_request);
                 body := body unsigned_request |}
  | None => unsigned_request
  end.

Definition bad_request_body : bytes :=
  list_byte_of_string
    ("{" +:+ Modelled.quoted "__type" +:+ ":" +:+ Modelled.quoted "BadRequestException"
     +:+ "," +:+ Modelled.quoted "Message" +:+ ":" +:+ Modelled.quoted "bad language code"
     +:+ "}").

Definition answer (status : Z) : Response :=
  {| status_code := status; response_headers := ∅ |}.

(** A client whose transport answers with [status] and [error_body] and
    whose signer yields [authorization]. *)
Definition client {Args : Type} (status : Z) (authorization : option string)
    (error_body : bytes) (ctor : Args → result StartArgs)
  : Client string unit unit unit Args StartArgs := {|
  service_name := "transcribe";
  region := "us-west-2";
  _event_signer := {| signer_service := "transcribe"; signer_region := "us-west-2" |};
  new_request := ctor;
  resolve := λ r, Return ("https://transcribestreaming." +:+ r +:+ ".amazonaws.com");
  serialize := λ _ _, Return unsigned_request;
  get_credentials := Return tt;
  sign := λ _ _ _ _, Return (signed_with authorization);
  make_request := λ _ _ _ _, Return tt;
  resolve_response := λ _, Return (answer status);
  consume_body := λ _, Return error_body;
  parse_exception := Modelled.parse_exception;
  parse_start_stream_transcription_response := λ _ _, Return tt
|}.

Definition world0 : world := World [] ∅.

(** The text a SigV4 signer puts before the signature. *)
Definition sigv4_prefix : string :=
  "AWS4-HMAC-SHA256 Credential=AKID/20200101/us-west-2/transcribe/aws4_request, "
  +:+ "SignedHeaders=host;x-amz-date, ".

Definition sha256_signature : string :=
  "5d672d79c15b13162d9279b0855cfba6789a8edb4c82c400e06b5924a6f2b5d7".

(** The shape class of the medical fake stores the common arguments. *)
Definition medical_ctor (margs : MedicalArgs) : result StartArgs :=
  Return (base_args margs).

End Fake.

(** ** Vocabulary of the statements *)

Section Vocabulary.

Context {Endpoint Credentials Pending Parsed Args Shape : Type}.
Abbreviation Self := (Client Endpoint Credentials Pending Parsed Args Shape).

(** The handshake resolves: every step up to the resolution of the response
    returns, the signer yields [signed_request], the transport yields the
    pending [response], which resolves to [resolved_response]. *)
Inductive handshake_resolves (self : Self) (args : Args)
    (signed_request : PreparedRequest) (response : Pending)
    (resolved_response : Response) : Prop :=
| HandshakeResolves (shape : Shape) (endpoint : Endpoint)
    (request : PreparedRequest) (creds : Credentials) :
    new_request self args = Return shape →
    resolve self (region self) = Return endpoint →
    serialize self endpoint shape = Return request →
    get_credentials self = Return creds →
    sign self "transcribe" (region self) request creds = Return signed_request →
    make_request self (uri signed_request) (method signed_request)
      (as_list (headers signed_request)) (body signed_request) = Return response →
    resolve_response self response = Return resolved_response →
    handshake_resolves self args signed_request response resolved_response.

(** The calls a resolved handshake makes on the outside world. *)
Definition handshake_calls (self : Self) (signed_request : PreparedRequest)
  : list event :=
  [ EvResolveEndpoint (region self);
    EvGetCredentials;
    EvMakeRequest (uri signed_request) (method signed_request)
      (as_list (headers signed_request)) (body signed_request);
    EvResolveResponse ].

(** The world after a resolved handshake. *)
Definition after_handshake (self : Self) (signed_request : PreparedRequest)
    (w : world) : world :=
  World (trace w ++ handshake_calls self signed_request) (closed w).

End Vocabulary.

(** Construction of an object that is handed back to the caller. *)
Definition is_construction (ev : event) : bool :=
  match ev with
  | EvNewAudioStream _ | EvNewEventStream => true
  | _ => false
  end.

Definition is_send (ev : event) : bool :=
  match ev with
  | EvMakeRequest _ _ _ _ => true
  | _ => false
  end.

(** [before a b l]: [a] occurs in [l], and no [b] occurs before the first
    [a]. *)
Fixpoint before (a b : event → bool) (l : list event) : bool :=
  match l with
  | [] => false
  | ev :: l' => if a ev then true else if b ev then false else before a b l'
  end.

Definition is_close_of (h : handle) (ev : event) : bool :=
  match ev with
  | EvBodyClose h' => Nat.eqb h h'
  | _ => false
  end.

Definition is_drain (ev : event) : bool :=
  match ev with
  | EvConsumeBody => true
  | _ => false
  end.

(** The text of the [Authorization] header that [_extract_signature] reads. *)
Definition authorization (signed_request : PreparedRequest) : string :=
  headers_get (headers signed_request) "Authorization" "".

(** A string [unhexlify] accepts: an even number of hexadecimal digits. *)
Definition all_hex (s : string) : bool :=
  forallb (λ c, bool_decide (is_Some (Text.hex_digit c))) (list_ascii_of_string s).

Definition valid_hex (s : string) : bool :=
  Nat.even (String.length s) && all_hex s.

(** A pattern that does not overlap a shifted copy of itself. *)
Definition self_disjoint (pat : string) : Prop :=
  ∀ s k, String.prefix pat s = true →
         (0 < k < String.length pat)%nat →
         String.prefix pat (Text.drop k s) = false.

(** A standard and a medical client that share every collaborator but the
    request shape class and the serializer. *)
Record same_collaborators {Endpoint Credentials Pending Parsed Shape MShape : Type}
    (std : Client Endpoint Credentials Pending Parsed StartArgs Shape)
    (med : Client Endpoint Credentials Pending Parsed MedicalArgs MShape) : Prop := {
  same_region : region med = region std;
  same_event_signer : _event_signer med = _event_signer std;
  same_resolve : resolve med = resolve std;
  same_get_credentials : get_credentials med = get_credentials std;
  same_sign : sign med = sign std;
  same_make_request : make_request med = make_request std;
  same_resolve_response : resolve_response med = resolve_response std;
  same_consume_body : consume_body med = consume_body std;
  same_parse_exception : parse_exception med = parse_exception std;
  same_parse_response :
    parse_start_stream_transcription_response med
    = parse_start_stream_transcription_response std
}.

(** The two clients build equal serialized requests from their arguments:
    both shape classes accept and the serializers agree on the shapes, or
    both shape classes reject with the same exception. *)
Inductive same_serialization {Endpoint Credentials Pending Parsed Shape MShape : Type}
    (std : Client Endpoint Credentials Pending Parsed StartArgs Shape)
    (med : Client Endpoint Credentials Pending Parsed MedicalArgs MShape)
    (args : StartArgs) (margs : MedicalArgs) : Prop :=
| BothSerialized (shape : Shape) (mshape : MShape) :
    new_request std args = Return shape →
    new_request med margs = Return mshape →
    (∀ endpoint, serialize med endpoint mshape = serialize std endpoint shape) →
    same_serialization std med args margs
| BothRejected (e : exn) :
    new_request std args = Raise e →
    new_request med margs = Raise e →
    same_serialization std med args margs.

(** ** Further vocabulary: counting calls, hexadecimal text *)

(** Number of the calls of [l] that satisfy [p]. *)
Fixpoint count_calls (p : event → bool) (l : list event) : nat :=
  match l with
  | [] => 0%nat
  | ev :: l' => ((if p ev then 1 else 0) + count_calls p l')%nat
  end.

Definition is_close (ev : event) : bool :=
  match ev with
  | EvBodyClose _ => true
  | _ => false
  end.

(** A call that neither closes a body, nor drains a response, nor
    constructs a stream. *)
Definition is_quiet (ev : event) : bool :=
  negb (is_close ev) && negb (is_drain ev) && negb (is_construction ev).

(** The signer signed the request built from [args] and yielded
    [signed_request]: every step up to signing returned. *)
Definition signed_as {Endpoint Credentials Pending Parsed Args Shape : Type}
    (self : Client Endpoint Credentials Pending Parsed Args Shape) (args : Args)
    (signed_request : PreparedRequest) : Prop :=
  ∃ shape endpoint request creds,
    new_request self args = Return shape
    ∧ resolve self (region self) = Return endpoint
    ∧ serialize self endpoint shape = Return request
    ∧ get_credentials self = Return creds
    ∧ sign self "transcribe" (region self) request creds = Return signed_request.

(** The call that sends [signed_request]. *)
Definition send_of (signed_request : PreparedRequest) : event :=
  EvMakeRequest (uri signed_request) (method signed_request)
    (as_list (headers signed_request)) (body signed_request).



(** The lowercase hexadecimal digit of a value below 16, and the
    hexadecimal text of a byte string as [bytes.hex] writes it. *)
Definition hex_char (n : N) : ascii :=
  if (n <? 10)%N then ascii_of_N (48 + n) else ascii_of_N (87 + n).

Fixpoint hexlify (bs : bytes) : string :=
  match bs with
  | [] => EmptyString
  | b :: bs' =>
      let n := Byte.to_N b in
      String (hex_char (n / 16)) (String (hex_char (n mod 16)) (hexlify bs'))
  end.

(** The same text with its letters in upper case, as [bytes.hex().upper()]. *)
Definition upper_hex_char (n : N) : ascii :=
  if (n <? 10)%N then ascii_of_N (48 + n) else ascii_of_N (55 + n).

Fixpoint hexlify_upper (bs : bytes) : string :=
  match bs with
  | [] => EmptyString
  | b :: bs' =>
      let n := Byte.to_N b in
      String (upper_hex_char (n / 16))
        (String (upper_hex_char (n mod 16)) (hexlify_upper bs'))
  end.

(** A fake package for the constructors: the collaborators of the fake
    client, a status and an [Authorization] value. *)
Definition fake_package (status : Z) (auth : option string) (error_body : bytes)
  : Package string unit unit unit StartArgs StartArgs unit := {|
  pkg_eventloop := tt;
  pkg_region_endpoint_resolver :=
    λ r, Return ("https://transcribestreaming." +:+ r +:+ ".amazonaws.com");
  pkg_crt_credential_resolver := λ _, Return tt;
  pkg_request := Modelled.StartStreamTranscriptionRequest;
  pkg_medical_request := Fake.medical_ctor;
  pkg_serializer := λ _ _, Return Fake.unsigned_request;
  pkg_medical_serializer := λ _ _, Return Fake.unsigned_request;
  pkg_signer := λ _ _ _ _, Return (Fake.signed_with auth);
  pkg_session := λ _ _ _ _ _, Return tt;
  pkg_resolve_response := λ _, Return (Fake.answer status);
  pkg_consume_body := λ _, Return error_body;
  pkg_parse_exception := Modelled.parse_exception;
  pkg_parse_response := λ _ _, Return tt
|}.

(** A fake client whose collaborators are given one by one, for the runs
    in which one of them raises. *)
Definition fake_client_of (endpoint : result string) (creds : result unit)
    (sent : result unit) (resolved : result Response) (drained : result bytes)
    (parsed : result unit) (auth : option string)
  : Client string unit unit unit StartArgs StartArgs := {|
  service_name := "transcribe";
  region := "us-west-2";
  _event_signer := {| signer_service := "transcribe"; signer_region := "us-west-2" |};
  new_request := Modelled.StartStreamTranscriptionRequest;
  resolve := λ _, endpoint;
  serialize := λ _ _, Return Fake.unsigned_request;
  get_credentials := creds;
  sign := λ _ _ _ _, Return (Fake.signed_with auth);
  make_request := λ _ _ _ _, sent;
  resolve_response := λ _, resolved;
  consume_body := λ _, drained;
  parse_exception := Modelled.parse_exception;
  parse_start_stream_transcription_response := λ _ _, parsed
|}.

Definition ConnectionError (msg : string) : exn := Exn "ConnectionError" msg.

(** * Properties *)

(** ** Text *)

Section Strings.

Lemma append_empty_l (s : string) : "" +:+ s = s.
Proof. reflexivity. Qed.

Lemma append_cons (c : ascii) (s t : string) : String c s +:+ t = String c (s +:+ t).
Proof. reflexivity. Qed.

Lemma append_empty_r (s : string) : s +:+ "" = s.
Proof.
  induction s as [|c s IH]; [reflexivity|]. now rewrite append_cons, IH.
Qed.

Lemma append_assoc (s t u : string) : (s +:+ t) +:+ u = s +:+ (t +:+ u).
Proof.
  induction s as [|c s IH]; [reflexivity|]. now rewrite !append_cons, IH.
Qed.

Lemma append_length (s t : string) :
  String.length (s +:+ t) = (String.length s + String.length t)%nat.
Proof.
  induction s as [|c s IH]; [reflexivity|]. rewrite append_cons. simpl. now rewrite IH.
Qed.

Lemma drop_append (s t : string) : Text.drop (String.length s) (s +:+ t) = t.
Proof.
  induction s as [|c s IH]; [now destruct t|]. rewrite append_cons. exact IH.
Qed.

Lemma drop_length_le (n : nat) (s : string) :
  (String.length (Text.drop n s) ≤ String.length s)%nat.
Proof.
  revert s; induction n as [|n IH]; intros [|c s]; simpl; try lia.
  specialize (IH s); lia.
Qed.

Lemma prefix_append (s t : string) : String.prefix s (s +:+ t) = true.
Proof.
  induction s as [|c s IH]; [now destruct t|].
  rewrite append_cons. simpl.
  destruct (ascii_dec c c); [exact IH | congruence].
Qed.

Lemma prefix_split (p s : string) :
  String.prefix p s = true → s = p +:+ Text.drop (String.length p) s.
Proof.
  revert s; induction p as [|a p IH]; intros s H.
  - now destruct s.
  - destruct s as [|b s]; simpl in H; [discriminate|].
    destruct (ascii_dec a b) as [->|]; [|discriminate].
    rewrite append_cons. simpl. f_equal. now apply IH.
Qed.

Lemma re_split_go_nonempty fuel pat s cur : Text.re_split_go fuel pat s cur ≠ [].
Proof.
  revert s cur; induction fuel as [|fuel IH]; intros s cur; simpl; [discriminate|].
  destruct s as [|c s]; [discriminate|].
  destruct (String.prefix pat (String c s)); [discriminate | apply IH].
Qed.

Lemma last_piece_cons (x : string) (l : list string) :
  l ≠ [] → Text.last_piece (x :: l) = Text.last_piece l.
Proof. destruct l; [congruence | reflexivity]. Qed.

Lemma occurs_after_last (pat s : string) :
  Text.occurs pat s = false → Text.after_last pat s = None.
Proof.
  induction s as [|c s IH]; simpl; [reflexivity|].
  intros [Hp Ho]%orb_false_elim. rewrite (IH Ho).
  simpl in Hp. now rewrite Hp.
Qed.

(** Occurrences that cannot begin before position [m] do not matter for
    the last one. *)
Lemma after_last_skip (pat : string) (m : nat) (t : string) :
  (∀ k, (k < m)%nat → String.prefix pat (Text.drop k t) = false) →
  Text.after_last pat t = Text.after_last pat (Text.drop m t).
Proof.
  revert t; induction m as [|m IH]; intros t H; [now destruct t|].
  destruct t as [|c t]; [reflexivity|].
  cbn [Text.after_last Text.drop].
  pose proof (H 0%nat ltac:(lia)) as H0. cbn [Text.drop] in H0. rewrite H0.
  rewrite <- IH.
  - now destruct (Text.after_last pat t).
  - intros k Hk. apply (H (S k)). lia.
Qed.

Variable pat : string.
Hypothesis pat_disjoint : self_disjoint pat.
Hypothesis pat_nonempty : pat ≠ "".

Lemma after_last_at_match (s : string) :
  String.prefix pat s = true →
  Text.after_last pat s
  = Some (default (Text.drop (String.length pat) s)
            (Text.after_last pat (Text.drop (String.length pat) s))).
Proof.
  intros Hp. destruct pat as [|a p] eqn:Epat; [congruence|].
  destruct s as [|c s]; [discriminate|].
  cbn [Text.after_last]. rewrite Hp.
  cbn [String.length Text.drop].
  rewrite (after_last_skip (String a p) (String.length p) s).
  - now destruct (Text.after_last _ _).
  - intros k Hk. apply (pat_disjoint (String c s) (S k) Hp). simpl. lia.
Qed.

(** The last piece of the split is what follows the last occurrence of the
    pattern, or the whole text when the pattern does not occur. *)
Lemma re_split_go_last (fuel : nat) (s cur : string) :
  (String.length s ≤ fuel)%nat →
  Text.last_piece (Text.re_split_go fuel pat s cur)
  = default (cur +:+ s) (Text.after_last pat s).
Proof.
  revert s cur; induction fuel as [|fuel IH]; intros s cur Hlen.
  - destruct s; [reflexivity | simpl in Hlen; lia].
  - destruct s as [|c s]; [simpl; now rewrite append_empty_r|].
    cbn [Text.re_split_go].
    destruct (String.prefix pat (String c s)) eqn:Hp.
    + rewrite last_piece_cons by apply re_split_go_nonempty.
      rewrite IH, (after_last_at_match _ Hp); [reflexivity|].
      destruct pat as [|a p]; [congruence|].
      cbn [String.length Text.drop]. simpl in Hlen.
      pose proof (drop_length_le (String.length p) s). lia.
    + rewrite IH by (simpl in Hlen; lia).
      cbn [Text.after_last]. rewrite Hp, append_assoc, append_cons, append_empty_l.
      now destruct (Text.after_last pat s).
Qed.

Lemma re_split_last (s : string) :
  Text.last_piece (Text.re_split pat s) = default s (Text.after_last pat s).
Proof. unfold Text.re_split. now rewrite re_split_go_last. Qed.

Lemma after_last_append (pre suf : string) :
  Text.occurs pat suf = false →
  Text.after_last pat (pre +:+ pat +:+ suf) = Some suf.
Proof.
  intros Ho. induction pre as [|c pre IH].
  - rewrite append_empty_l, after_last_at_match by apply prefix_append.
    now rewrite drop_append, (occurs_after_last _ _ Ho).
  - rewrite append_cons. cbn [Text.after_last]. now rewrite IH.
Qed.

End Strings.

Lemma signature_disjoint : self_disjoint "Signature=".
Proof.
  intros s k Hp Hk.
  apply prefix_split in Hp. rewrite Hp. clear Hp.
  generalize (Text.drop (String.length "Signature=") s) as rest. intros rest.
  simpl in Hk.
  do 10 (destruct k as [|k]; [first [lia | reflexivity]|]).
  lia.
Qed.

Lemma signature_nonempty : "Signature=" ≠ "".
Proof. discriminate. Qed.

(** Induction on strings two characters at a time. *)
Lemma string_pair_ind (P : string → Prop) :
  P "" → (∀ c, P (String c "")) →
  (∀ a b s, P s → P (String a (String b s))) →
  ∀ s, P s.
Proof.
  intros H0 H1 H2 s.
  assert (P s ∧ ∀ c, P (String c s)) as [H _]; [|exact H].
  induction s as [|c s [IHs IHc]]; split; auto.
Qed.

Lemma hex_digit_ascii (c : ascii) (n : N) :
  Text.hex_digit c = Some n → (N_of_ascii c <? 128)%N = true.
Proof.
  unfold Text.hex_digit. cbv zeta.
  repeat case_match; try discriminate; intros _;
    apply N.ltb_lt; repeat match goal with H : (_ && _) = true |- _ =>
      apply andb_true_iff in H as [_ ?%N.leb_le] end; lia.
Qed.

Lemma hex_pairs_length (s : string) (bs : bytes) :
  Text.hex_pairs s = Some bs → String.length s = (2 * length bs)%nat.
Proof.
  revert bs. induction s as [|c|a b s IH] using string_pair_ind; intros bs H.
  - now inversion H.
  - discriminate.
  - cbn [Text.hex_pairs] in H.
    destruct (Text.hex_digit a), (Text.hex_digit b), (Text.hex_pairs s);
      try discriminate.
    inversion H; subst. simpl. rewrite (IH _ eq_refl). lia.
Qed.

Lemma hex_pairs_valid (s : string) :
  is_Some (Text.hex_pairs s) ↔ valid_hex s = true.
Proof.
  unfold valid_hex, all_hex.
  induction s as [|c|a b s IH] using string_pair_ind.
  - split; [reflexivity | intros _; now eexists].
  - split; [intros [? ?]; discriminate | discriminate].
  - cbn [Text.hex_pairs String.length Nat.even list_ascii_of_string forallb].
    destruct (Text.hex_digit a) as [h|]; cbn.
    2:{ split; [intros [? ?]; discriminate | intros H; rewrite andb_false_r in H; discriminate]. }
    destruct (Text.hex_digit b) as [l|]; cbn.
    2:{ split; [intros [? ?]; discriminate | intros H; rewrite andb_false_r in H; discriminate]. }
    rewrite <- IH. destruct (Text.hex_pairs s); split; intros [? ?]; try discriminate; now eexists.
Qed.

Lemma all_hex_is_ascii (s : string) : all_hex s = true → Text.is_ascii s = true.
Proof.
  unfold all_hex. induction s as [|c s IH]; [reflexivity|].
  cbn [list_ascii_of_string forallb Text.is_ascii].
  intros [Hc Hs]%andb_true_iff. apply bool_decide_eq_true in Hc as [n Hn].
  now rewrite (hex_digit_ascii _ _ Hn), IH.
Qed.

Lemma even_not_odd (n : nat) : Nat.even n = true → Nat.odd n = false.
Proof. unfold Nat.odd. now intros ->. Qed.

(** [unhexlify] returns exactly on the valid hexadecimal strings. *)
Lemma unhexlify_returns (s : string) :
  valid_hex s = true → ∃ bs, Text.unhexlify s = Return bs.
Proof.
  intros Hv. pose proof Hv as [He Ha]%andb_true_iff.
  apply hex_pairs_valid in Hv as [bs Hbs].
  exists bs. unfold Text.unhexlify.
  now rewrite (all_hex_is_ascii _ Ha), (even_not_odd _ He), Hbs.
Qed.

Lemma unhexlify_raises (s : string) :
  valid_hex s = false →
  ∃ e, Text.unhexlify s = Raise e
       ∧ (exn_class e = "binascii.Error" ∨ exn_class e = "ValueError").
Proof.
  intros Hv. unfold Text.unhexlify.
  destruct (Text.is_ascii s); cbn; [|eexists; split; [reflexivity | now right]].
  destruct (Nat.odd _); [eexists; split; [reflexivity | now left]|].
  destruct (Text.hex_pairs s) as [bs|] eqn:Hbs;
    [|eexists; split; [reflexivity | now left]].
  assert (valid_hex s = true) by (apply (proj1 (hex_pairs_valid s)); rewrite Hbs; now eexists).
  congruence.
Qed.

Lemma unhexlify_length (s : string) (bs : bytes) :
  Text.unhexlify s = Return bs → String.length s = (2 * length bs)%nat.
Proof.
  unfold Text.unhexlify. repeat case_match; try discriminate.
  intros [= <-]. now apply hex_pairs_length.
Qed.

(** ** Session start *)

(** Unfolding of the monad and of the two operations. *)
Ltac unfold_client :=
  unfold run,
    TranscribeStreamingClient.start_stream_transcription,
    TranscribeMedicalStreamingClient.start_stream_transcription,
    TranscribeMedicalStreamingClient._create_audio_stream,
    TranscribeStreamingClient._create_audio_stream,
    new_AudioStream, new_EventStream, await, call, emit, raise, close,
    mbind, M_bind, mret, M_ret.

(** Replays a resolved handshake through the unfolded operation. *)
Ltac replay H :=
  let shape := fresh "shape" in
  let endpoint := fresh "endpoint" in
  let request := fresh "request" in
  let creds := fresh "creds" in
  destruct H as [shape endpoint request creds H1 H2 H3 H4 H5 H6 H7];
  unfold_client;
  rewrite H1; cbn beta iota; rewrite H2; cbn beta iota;
  rewrite H3; cbn beta iota; rewrite H4; cbn beta iota;
  rewrite H5; cbn beta iota; rewrite H6; cbn beta iota;
  rewrite H7; cbn beta iota zeta;
  cbn [trace closed].

Section SessionStart.

Context {Endpoint Credentials Pending Parsed Args Shape : Type}.
Implicit Types (self : Client Endpoint Credentials Pending Parsed Args Shape).
Implicit Types (w : world) (signed_request : PreparedRequest).

Lemma before_close_drain (h : handle) (l : list event) :
  forallb (λ ev, negb (is_close_of h ev) && negb (is_drain ev)) l = true →
  before (is_close_of h) is_drain (l ++ [EvBodyClose h; EvConsumeBody]) = true.
Proof.
  induction l as [|ev l IH]; cbn [forallb app before].
  - cbn. now rewrite Nat.eqb_refl.
  - intros [[Hc Hd]%andb_true_iff Hl]%andb_true_iff.
    apply negb_true_iff in Hc, Hd. rewrite Hc, Hd. auto.
Qed.

(** The whole behaviour of the operation on a status of 400 or more. *)
Lemma error_status_outcome self args signed_request response resolved_response w :
  handshake_resolves self args signed_request response resolved_response →
  400 ≤ status_code resolved_response →
  run (TranscribeStreamingClient.start_stream_transcription self args) w
  = (World (trace w ++ handshake_calls self signed_request
              ++ [EvBodyClose (body signed_request); EvConsumeBody])
       ({[body signed_request]} ∪ closed w),
     match consume_body self response with
     | Return body_bytes => Raise (parse_exception self resolved_response body_bytes)
     | Raise e => Raise e
     end).
Proof.
  intros H Hst. replay H.
  destruct (Z.leb_spec 400 (status_code resolved_response)); [|lia].
  unfold handshake_calls.
  destruct (consume_body self response); cbn; now rewrite <- !app_assoc.
Qed.

(** C1: on a status of 400 or more the operation closes the outbound request
    body, then drains the response body, then raises the error the
    response parser builds from the drained bytes; the close comes before
    the drain. *)
Theorem error_status_closes_before_drain self args signed_request response
    resolved_response body_bytes w :
  handshake_resolves self args signed_request response resolved_response →
  400 ≤ status_code resolved_response →
  consume_body self response = Return body_bytes →
  let calls := handshake_calls self signed_request
               ++ [EvBodyClose (body signed_request); EvConsumeBody] in
  run (TranscribeStreamingClient.start_stream_transcription self args) w
  = (World (trace w ++ calls) ({[body signed_request]} ∪ closed w),
     Raise (parse_exception self resolved_response body_bytes))
  ∧ before (is_close_of (body signed_request)) is_drain calls = true.
Proof.
  intros H Hst Hbody calls. split.
  - now rewrite (error_status_outcome _ _ _ _ _ _ H Hst), Hbody.
  - apply before_close_drain. reflexivity.
Qed.

(** What [_extract_signature] decodes: the text after the last
    [Signature=] of the header, or the whole header without one. *)
Lemma extract_signature_after_last signed_request :
  TranscribeStreamingClient._extract_signature signed_request
  = Text.unhexlify
      (default (authorization signed_request)
         (Text.after_last "Signature=" (authorization signed_request))).
Proof.
  unfold TranscribeStreamingClient._extract_signature, authorization.
  now rewrite (re_split_last _ signature_disjoint signature_nonempty).
Qed.

Lemma extract_signature_suffix signed_request (pre sig : string) :
  authorization signed_request = pre +:+ "Signature=" +:+ sig →
  Text.occurs "Signature=" sig = false →
  TranscribeStreamingClient._extract_signature signed_request = Text.unhexlify sig.
Proof.
  intros Ha Ho. rewrite extract_signature_after_last, Ha.
  now rewrite (after_last_append _ signature_disjoint signature_nonempty).
Qed.

(** The whole behaviour of the operation on status 200. *)
Lemma status_200_outcome self args signed_request response resolved_response w :
  handshake_resolves self args signed_request response resolved_response →
  status_code resolved_response = 200 →
  run (TranscribeStreamingClient.start_stream_transcription self args) w
  = let w1 := after_handshake self signed_request w in
    match parse_start_stream_transcription_response self resolved_response response with
    | Raise e => (w1, Raise e)
    | Return parsed =>
        match TranscribeStreamingClient._extract_signature signed_request with
        | Raise e => (w1, Raise e)
        | Return seed =>
            (World (trace w1 ++ [EvNewAudioStream (body signed_request); EvNewEventStream])
               (closed w),
             Return {| audio_stream :=
                         {| input_stream := body signed_request;
                            event_signer := _event_signer self;
                            initial_signature := seed;
                            credential_resolver := get_credentials self |};
                       response := parsed |})
        end
    end.
Proof.
  intros H Hst. replay H. rewrite Hst. cbn.
  unfold after_handshake, handshake_calls.
  destruct (parse_start_stream_transcription_response _ _ _); cbn;
    [now rewrite <- !app_assoc|].
  destruct (TranscribeStreamingClient._extract_signature _); cbn;
    now rewrite <- !app_assoc.
Qed.

(** C2: when the handshake resolves with status 200 and the response
    parses, the operation returns a stream whose [initial_signature] is the
    hex-decoding of the text that follows the last [Signature=] of the
    [Authorization] header; for a header ending in [Signature=deadbeef] the
    seed is the four bytes de ad be ef. *)
Theorem seed_is_hex_after_last_signature self args signed_request response
    resolved_response parsed w :
  handshake_resolves self args signed_request response resolved_response →
  status_code resolved_response = 200 →
  parse_start_stream_transcription_response self resolved_response response
  = Return parsed →
  (∀ pre sig seed,
     authorization signed_request = pre +:+ "Signature=" +:+ sig →
     Text.occurs "Signature=" sig = false →
     Text.unhexlify sig = Return seed →
     ∃ w' stream,
       run (TranscribeStreamingClient.start_stream_transcription self args) w
       = (w', Return stream)
       ∧ initial_signature (audio_stream stream) = seed)
  ∧ (∀ pre,
       authorization signed_request = pre +:+ "Signature=deadbeef" →
       ∃ w' stream,
         run (TranscribeStreamingClient.start_stream_transcription self args) w
         = (w', Return stream)
         ∧ initial_signature (audio_stream stream) = [xde; xad; xbe; xef]).
Proof.
  intros H Hst Hparse.
  assert (∀ pre sig seed,
     authorization signed_request = pre +:+ "Signature=" +:+ sig →
     Text.occurs "Signature=" sig = false →
     Text.unhexlify sig = Return seed →
     ∃ w' stream,
       run (TranscribeStreamingClient.start_stream_transcription self args) w
       = (w', Return stream)
       ∧ initial_signature (audio_stream stream) = seed) as Hgen.
  { intros pre sig seed Ha Ho Hx.
    rewrite (status_200_outcome _ _ _ _ _ _ H Hst), Hparse.
    rewrite (extract_signature_suffix _ _ _ Ha Ho), Hx. cbn zeta.
    eexists _, _. split; reflexivity. }
  split; [exact Hgen|].
  intros pre Ha. apply (Hgen pre "deadbeef"); [exact Ha | reflexivity | reflexivity].
Qed.

(** The whole behaviour of the operation on a status below 400 other
    than 200. *)
Lemma unexpected_status_outcome self args signed_request response
    resolved_response w :
  handshake_resolves self args signed_request response resolved_response →
  status_code resolved_response < 400 →
  status_code resolved_response ≠ 200 →
  run (TranscribeStreamingClient.start_stream_transcription self args) w
  = (after_handshake self signed_request w,
     Raise (RuntimeError ("Unexpected status code encountered: "
                          +:+ Text.str_of_int (status_code resolved_response)))).
Proof.
  intros H Hlt Hne. replay H.
  destruct (Z.leb_spec 400 (status_code resolved_response)); [lia|].
  destruct (Z.eqb_spec (status_code resolved_response) 200); [lia|].
  cbn. unfold after_handshake, handshake_calls. now rewrite <- !app_assoc.
Qed.

(** C4, as the code has it: on a status below 400 other than 200 the
    operation raises a [RuntimeError] whose message is
    [Unexpected status code encountered: ] followed by the status in
    decimal; nothing happens after the resolution of the response, and
    the request was sent once. *)
Theorem unexpected_status_raises_runtime_error self args signed_request response
    resolved_response w :
  handshake_resolves self args signed_request response resolved_response →
  status_code resolved_response < 400 →
  status_code resolved_response ≠ 200 →
  run (TranscribeStreamingClient.start_stream_transcription self args) w
  = (after_handshake self signed_request w,
     Raise (Exn "RuntimeError"
              ("Unexpected status code encountered: "
               +:+ Text.str_of_int (status_code resolved_response))))
  ∧ length (filter (λ ev, is_send ev = true) (handshake_calls self signed_request))
    = 1%nat.
Proof.
  intros H Hlt Hne. split; [exact (unexpected_status_outcome _ _ _ _ _ _ H Hlt Hne) | reflexivity].
Qed.

(** C5: when the handshake resolves with a status other than 200 the
    operation raises, and none of the calls it made constructs an audio
    stream or an event stream. *)
Theorem failed_start_returns_nothing self args signed_request response
    resolved_response w :
  handshake_resolves self args signed_request response resolved_response →
  status_code resolved_response ≠ 200 →
  ∃ w' e calls,
    run (TranscribeStreamingClient.start_stream_transcription self args) w
    = (w', Raise e)
    ∧ trace w' = trace w ++ calls
    ∧ forallb (λ ev, negb (is_construction ev)) calls = true.
Proof.
  intros H Hne.
  destruct (Z.le_gt_cases 400 (status_code resolved_response)) as [Hge|Hlt].
  - rewrite (error_status_outcome _ _ _ _ _ _ H Hge).
    destruct (consume_body self response); eexists _, _, _;
      (split; [reflexivity|]); split; reflexivity.
  - rewrite (unexpected_status_outcome _ _ _ _ _ _ H Hlt Hne).
    eexists _, _, _. split; [reflexivity|]. split; reflexivity.
Qed.

(** C6: on status 200 no [close] reaches the outbound request body (the set
    of closed bodies is unchanged and no call made is a close of it), a
    returned stream has that same body as the [input_stream] of its audio
    stream, and a stream is returned as soon as the response parses and
    the signature decodes. *)
Theorem status_200_hands_over_open_body self args signed_request response
    resolved_response w :
  handshake_resolves self args signed_request response resolved_response →
  status_code resolved_response = 200 →
  let out := run (TranscribeStreamingClient.start_stream_transcription self args) w in
  closed (fst out) = closed w
  ∧ (∃ calls, trace (fst out) = trace w ++ calls
              ∧ forallb (λ ev, negb (is_close_of (body signed_request) ev)) calls = true)
  ∧ (∀ stream, snd out = Return stream →
               input_stream (audio_stream stream) = body signed_request)
  ∧ (∀ parsed seed,
       parse_start_stream_transcription_response self resolved_response response
       = Return parsed →
       TranscribeStreamingClient._extract_signature signed_request = Return seed →
       ∃ stream, snd out = Return stream).
Proof.
  intros H Hst out. subst out.
  rewrite (status_200_outcome _ _ _ _ _ _ H Hst). cbn zeta.
  destruct (parse_start_stream_transcription_response _ _ _) as [e|parsed];
    [|destruct (TranscribeStreamingClient._extract_signature _) as [e|seed]];
    cbn [fst snd closed trace after_handshake];
    (split; [reflexivity|]);
    (split; [eexists; split; [rewrite <- ?app_assoc; reflexivity | reflexivity]|]);
    (split; [intros stream [= <-] || (intros stream; discriminate); reflexivity|]);
    intros parsed' seed' ? ?; try discriminate; now eexists.
Qed.

(** C7, as the code has it: the seed that [_extract_signature] returns has
    half as many bytes as there are characters after the last [Signature=]
    of the [Authorization] header. *)
Theorem seed_length_is_half_signature_length signed_request (pre sig : string)
    (seed : bytes) :
  authorization signed_request = pre +:+ "Signature=" +:+ sig →
  Text.occurs "Signature=" sig = false →
  TranscribeStreamingClient._extract_signature signed_request = Return seed →
  String.length sig = (2 * length seed)%nat.
Proof.
  intros Ha Ho Hx. rewrite (extract_signature_suffix _ _ _ Ha Ho) in Hx.
  now apply unhexlify_length.
Qed.

(** C8: without an [Authorization] header [_extract_signature] returns the
    empty byte string, and for a header in which [Signature=] does not
    occur it is the hex-decoding of the whole header value. *)
Theorem missing_signature_is_not_an_error signed_request :
  (headers signed_request !! "Authorization" = None →
   TranscribeStreamingClient._extract_signature signed_request = Return [])
  ∧ (∀ auth, headers signed_request !! "Authorization" = Some auth →
             Text.occurs "Signature=" auth = false →
             TranscribeStreamingClient._extract_signature signed_request
             = Text.unhexlify auth).
Proof.
  split.
  - intros Hn. rewrite extract_signature_after_last.
    unfold authorization, headers_get. now rewrite Hn.
  - intros auth Hs Ho. rewrite extract_signature_after_last.
    unfold authorization, headers_get. rewrite Hs. simpl.
    now rewrite (occurs_after_last _ _ Ho).
Qed.

(** C9: on status 200 with a parsed response, when the text after the last
    [Signature=] of the [Authorization] header is not an even number of
    hexadecimal digits, [_extract_signature] raises a decoding error and
    the operation raises that same error, after the handshake and before
    any stream is built. *)
Theorem status_200_can_still_fail self args signed_request response
    resolved_response parsed (pre sig : string) w :
  handshake_resolves self args signed_request response resolved_response →
  status_code resolved_response = 200 →
  parse_start_stream_transcription_response self resolved_response response
  = Return parsed →
  authorization signed_request = pre +:+ "Signature=" +:+ sig →
  Text.occurs "Signature=" sig = false →
  valid_hex sig = false →
  ∃ e,
    TranscribeStreamingClient._extract_signature signed_request = Raise e
    ∧ (exn_class e = "binascii.Error" ∨ exn_class e = "ValueError")
    ∧ run (TranscribeStreamingClient.start_stream_transcription self args) w
      = (after_handshake self signed_request w, Raise e).
Proof.
  intros H Hst Hparse Ha Ho Hv.
  destruct (unhexlify_raises _ Hv) as (e & He & Hclass).
  rewrite <- (extract_signature_suffix _ _ _ Ha Ho) in He.
  exists e. split; [exact He|]. split; [exact Hclass|].
  now rewrite (status_200_outcome _ _ _ _ _ _ H Hst), Hparse, He.
Qed.

End SessionStart.



(** C10: a standard and a medical client that share their collaborators and
    build equal serialized requests have equal runs of
    [start_stream_transcription]: the same calls, the same closed bodies,
    the same stream or the same exception. *)
Theorem medical_start_equals_standard
    {Endpoint Credentials Pending Parsed Shape MShape : Type}
    (std : Client Endpoint Credentials Pending Parsed StartArgs Shape)
    (med : Client Endpoint Credentials Pending Parsed MedicalArgs MShape)
    (args : StartArgs) (margs : MedicalArgs) (w : world) :
  same_collaborators std med →
  same_serialization std med args margs →
  run (TranscribeMedicalStreamingClient.start_stream_transcription med margs) w
  = run (TranscribeStreamingClient.start_stream_transcription std args) w.
Proof.
  intros [Hreg Hsig Hres Hcred Hsign Hmk Hrr Hcb Hpe Hpr] Hser.
  unfold_client.
  rewrite Hreg, Hsig, Hres, Hcred, Hsign, Hmk, Hrr, Hcb, Hpe, Hpr.
  destruct Hser as [shape mshape Hs Hm Heq | e Hs Hm]; rewrite Hs, Hm;
    [|reflexivity].
  cbn beta iota. destruct (resolve std (region std)) as [e|endpoint];
    [reflexivity|].
  cbn beta iota. now rewrite Heq.
Qed.


(** ** The statements at concrete inputs *)

(** The handshake of the fake client resolves. *)
Lemma fake_handshake (status : Z) (auth : option string) (error_body : bytes) :
  handshake_resolves
    (Fake.client status auth error_body Modelled.StartStreamTranscriptionRequest)
    Fake.plain_args (Fake.signed_with auth) tt (Fake.answer status).
Proof. econstructor; reflexivity. Defined.

(** Scenario B of the spec: status 400 with a [BadRequestException] body. *)
Lemma error_status_closes_before_drain_witness :
  let self := Fake.client 400 (Some (Fake.sigv4_prefix +:+ "Signature=deadbeef"))
                Fake.bad_request_body Modelled.StartStreamTranscriptionRequest in
  ∃ w',
    run (TranscribeStreamingClient.start_stream_transcription self Fake.plain_args)
      Fake.world0
    = (w', Raise (Exn "BadRequestException" "bad language code"))
    ∧ before (is_close_of 7%nat) is_drain (trace w') = true.
Proof.
  intros self.
  destruct (error_status_closes_before_drain self Fake.plain_args
              (Fake.signed_with (Some (Fake.sigv4_prefix +:+ "Signature=deadbeef")))
              tt (Fake.answer 400) Fake.bad_request_body Fake.world0)
    as [Hrun Hord].
  - apply fake_handshake.
  - cbn. lia.
  - reflexivity.
  - eexists. split; [exact Hrun | exact Hord].
Defined.

(** Scenario A of the spec: status 200 and a header ending in
    [Signature=deadbeef]. *)
Lemma seed_is_hex_after_last_signature_witness :
  let self := Fake.client 200 (Some (Fake.sigv4_prefix +:+ "Signature=deadbeef"))
                [] Modelled.StartStreamTranscriptionRequest in
  ∃ w' stream,
    run (TranscribeStreamingClient.start_stream_transcription self Fake.plain_args)
      Fake.world0
    = (w', Return stream)
    ∧ initial_signature (audio_stream stream) = [xde; xad; xbe; xef].
Proof.
  intros self.
  apply (proj2 (seed_is_hex_after_last_signature self Fake.plain_args
                  (Fake.signed_with (Some (Fake.sigv4_prefix +:+ "Signature=deadbeef")))
                  tt (Fake.answer 200) tt Fake.world0
                  (fake_handshake _ _ _) eq_refl eq_refl)
           Fake.sigv4_prefix).
  vm_compute. reflexivity.
Defined.



(** At status 301 the raised exception is a [RuntimeError] whose message
    names the status; it is not a [ProtocolError] with the message
    [unexpected status]. *)
Lemma unexpected_status_is_not_protocol_error :
  let self := Fake.client 301 (Some (Fake.sigv4_prefix +:+ "Signature=deadbeef"))
                [] Modelled.StartStreamTranscriptionRequest in
  let out := run (TranscribeStreamingClient.start_stream_transcription self
                    Fake.plain_args) Fake.world0 in
  snd out = Raise (Exn "RuntimeError" "Unexpected status code encountered: 301")
  ∧ snd out ≠ Raise (Exn "ProtocolError" "unexpected status").
Proof.
  split; [vm_compute; reflexivity | vm_compute; discriminate].
Qed.

(** Status 301 on the fake client. *)
Lemma unexpected_status_raises_runtime_error_witness :
  let self := Fake.client 301 (Some (Fake.sigv4_prefix +:+ "Signature=deadbeef"))
                [] Modelled.StartStreamTranscriptionRequest in
  ∃ w',
    run (TranscribeStreamingClient.start_stream_transcription self Fake.plain_args)
      Fake.world0
    = (w', Raise (Exn "RuntimeError" "Unexpected status code encountered: 301")).
Proof.
  intros self. eexists.
  apply (unexpected_status_raises_runtime_error self Fake.plain_args
           (Fake.signed_with (Some (Fake.sigv4_prefix +:+ "Signature=deadbeef")))
           tt (Fake.answer 301) Fake.world0 (fake_handshake _ _ _)).
  - cbn. lia.
  - cbn. lia.
Defined.

(** Status 403 on the fake client. *)
Lemma failed_start_returns_nothing_witness :
  let self := Fake.client 403 (Some (Fake.sigv4_prefix +:+ "Signature=deadbeef"))
                Fake.bad_request_body Modelled.StartStreamTranscriptionRequest in
  ∃ w' e calls,
    run (TranscribeStreamingClient.start_stream_transcription self Fake.plain_args)
      Fake.world0
    = (w', Raise e)
    ∧ trace w' = trace Fake.world0 ++ calls
    ∧ forallb (λ ev, negb (is_construction ev)) calls = true.
Proof.
  intros self.
  apply (failed_start_returns_nothing self Fake.plain_args
           (Fake.signed_with (Some (Fake.sigv4_prefix +:+ "Signature=deadbeef")))
           tt (Fake.answer 403) Fake.world0 (fake_handshake _ _ _)).
  cbn. lia.
Defined.

(** Status 200 on the fake client: body 7 stays open and is handed over. *)
Lemma status_200_hands_over_open_body_witness :
  let self := Fake.client 200 (Some (Fake.sigv4_prefix +:+ "Signature=deadbeef"))
                [] Modelled.StartStreamTranscriptionRequest in
  let out := run (TranscribeStreamingClient.start_stream_transcription self
                    Fake.plain_args) Fake.world0 in
  closed (fst out) = ∅
  ∧ ∃ stream, snd out = Return stream ∧ input_stream (audio_stream stream) = 7%nat.
Proof.
  intros self out.
  destruct (status_200_hands_over_open_body self Fake.plain_args
              (Fake.signed_with (Some (Fake.sigv4_prefix +:+ "Signature=deadbeef")))
              tt (Fake.answer 200) Fake.world0 (fake_handshake _ _ _) eq_refl)
    as (Hclosed & _ & Hsame & Hret).
  split; [exact Hclosed|].
  destruct (Hret tt [xde; xad; xbe; xef] eq_refl) as [stream Hs];
    [vm_compute; reflexivity|].
  exists stream. split; [exact Hs | exact (Hsame stream Hs)].
Defined.

(** Two sessions with the same valid parameters whose seeds differ in
    length: four bytes for the signature [deadbeef], thirty-two for a
    SHA-256 signature. *)
Lemma seed_length_depends_on_header :
  let short := Fake.client 200 (Some (Fake.sigv4_prefix +:+ "Signature=deadbeef"))
                 [] Modelled.StartStreamTranscriptionRequest in
  let long := Fake.client 200
                (Some (Fake.sigv4_prefix +:+ "Signature=" +:+ Fake.sha256_signature))
                [] Modelled.StartStreamTranscriptionRequest in
  ∃ w1 s1 w2 s2,
    run (TranscribeStreamingClient.start_stream_transcription short Fake.plain_args)
      Fake.world0 = (w1, Return s1)
    ∧ run (TranscribeStreamingClient.start_stream_transcription long Fake.plain_args)
        Fake.world0 = (w2, Return s2)
    ∧ length (initial_signature (audio_stream s1)) = 4%nat
    ∧ length (initial_signature (audio_stream s2)) = 32%nat.
Proof.
  intros short long. eexists _, _, _, _.
  split; [vm_compute; reflexivity|].
  split; [vm_compute; reflexivity|].
  split; reflexivity.
Qed.

(** Eight hexadecimal digits give four bytes. *)
Lemma seed_length_is_half_signature_length_witness :
  String.length "deadbeef" = (2 * length [xde; xad; xbe; xef])%nat.
Proof.
  apply (seed_length_is_half_signature_length
           (Fake.signed_with (Some (Fake.sigv4_prefix +:+ "Signature=deadbeef")))
           Fake.sigv4_prefix "deadbeef" [xde; xad; xbe; xef]);
    vm_compute; reflexivity.
Defined.

(** No header, and a header that is only hexadecimal digits. *)
Lemma missing_signature_is_not_an_error_witness :
  TranscribeStreamingClient._extract_signature (Fake.signed_with None) = Return []
  ∧ TranscribeStreamingClient._extract_signature (Fake.signed_with (Some "cafe"))
    = Return [xca; xfe].
Proof.
  split.
  - apply (proj1 (missing_signature_is_not_an_error (Fake.signed_with None))).
    vm_compute. reflexivity.
  - rewrite (proj2 (missing_signature_is_not_an_error (Fake.signed_with (Some "cafe")))
               "cafe"); vm_compute; reflexivity.
Defined.

(** Status 200 with the signature text [xyz]. *)
Lemma status_200_can_still_fail_witness :
  let self := Fake.client 200 (Some (Fake.sigv4_prefix +:+ "Signature=xyz"))
                [] Modelled.StartStreamTranscriptionRequest in
  ∃ w' e,
    run (TranscribeStreamingClient.start_stream_transcription self Fake.plain_args)
      Fake.world0
    = (w', Raise e)
    ∧ (exn_class e = "binascii.Error" ∨ exn_class e = "ValueError").
Proof.
  intros self.
  destruct (status_200_can_still_fail self Fake.plain_args
              (Fake.signed_with (Some (Fake.sigv4_prefix +:+ "Signature=xyz")))
              tt (Fake.answer 200) tt Fake.sigv4_prefix "xyz" Fake.world0
              (fake_handshake _ _ _) eq_refl eq_refl)
    as (e & _ & Hclass & Hrun); [vm_compute; reflexivity | reflexivity | reflexivity |].
  eexists _, e. split; [exact Hrun | exact Hclass].
Defined.

(** The two fake clients on the same transport. *)
Lemma medical_start_equals_standard_witness :
  let std := Fake.client 200 (Some (Fake.sigv4_prefix +:+ "Signature=deadbeef"))
               [] Modelled.StartStreamTranscriptionRequest in
  let med := Fake.client 200 (Some (Fake.sigv4_prefix +:+ "Signature=deadbeef"))
               [] Fake.medical_ctor in
  run (TranscribeMedicalStreamingClient.start_stream_transcription med Fake.medical_args)
    Fake.world0
  = run (TranscribeStreamingClient.start_stream_transcription std Fake.plain_args)
      Fake.world0.
Proof.
  intros std med.
  apply (medical_start_equals_standard std med Fake.plain_args Fake.medical_args
           Fake.world0).
  - constructor; reflexivity.
  - eapply BothSerialized; reflexivity.
Defined.

(** ** Sample runs of the text helpers *)

Example split_two :
  Text.re_split "Signature=" "a Signature=12, Signature=ab" = ["a "; "12, "; "ab"].
Proof. reflexivity. Qed.

Example split_none : Text.re_split "Signature=" "abc" = ["abc"].
Proof. reflexivity. Qed.

Example split_empty : Text.re_split "Signature=" "" = [""].
Proof. reflexivity. Qed.

Example unhex_deadbeef : Text.unhexlify "deadbeef" = Return [xde; xad; xbe; xef].
Proof. reflexivity. Qed.

Example unhex_odd : Text.unhexlify "abc" = Raise (Text.BinasciiError "Odd-length string").
Proof. reflexivity. Qed.

Example unhex_upper : Text.unhexlify "DEADbeef" = Return [xde; xad; xbe; xef].
Proof. reflexivity. Qed.

Example str_301 : Text.str_of_int 301 = "301".
Proof. reflexivity. Qed.

Example str_negative : Text.str_of_int (-5) = "-5".
Proof. reflexivity. Qed.

(** * Further properties of the client module *)

Section Coverage.

Context {Endpoint Credentials Pending Parsed Args Shape : Type}.
Implicit Types (self : Client Endpoint Credentials Pending Parsed Args Shape).
Implicit Types (w : world) (signed_request : PreparedRequest).

Lemma world_eta w : World (trace w) (closed w) = w.
Proof. now destruct w. Qed.

Lemma resolved_is_signed self args signed_request response resolved_response :
  handshake_resolves self args signed_request response resolved_response →
  signed_as self args signed_request.
Proof. intros [shape ep req creds]. now exists shape, ep, req, creds. Qed.

(** Either the handshake resolves, or the operation raises at the step that
    failed, having made only quiet calls and sent at most once, and then
    the signed request. *)
Lemma early_failure_or_resolved self args w :
  (∃ signed_request response resolved_response,
     handshake_resolves self args signed_request response resolved_response)
  ∨ (∃ e calls,
       run (TranscribeStreamingClient.start_stream_transcription self args) w
       = (World (trace w ++ calls) (closed w), Raise e)
       ∧ forallb is_quiet calls = true
       ∧ (count_calls is_send calls ≤ 1)%nat
       ∧ (∀ ev, In ev calls → is_send ev = true →
                ∃ signed_request,
                  signed_as self args signed_request ∧ ev = send_of signed_request)).
Proof.
  assert (∀ l : list event, forallb (λ ev, negb (is_send ev)) l = true →
            ∀ ev, In ev l → is_send ev = true → ∃ signed_request,
              signed_as self args signed_request ∧ ev = send_of signed_request)
    as Hnone.
  { intros l Hl ev Hin Hs. rewrite forallb_forall in Hl.
    specialize (Hl ev Hin). rewrite Hs in Hl. discriminate. }
  destruct (new_request self args) as [e|shape] eqn:H1.
  { right. exists e, []. unfold_client. rewrite H1, app_nil_r, world_eta.
    split; [reflexivity|]; split; [reflexivity|]; split; [cbn; lia|];
      apply Hnone; reflexivity. }
  destruct (resolve self (region self)) as [e|endpoint] eqn:H2.
  { right. exists e, [EvResolveEndpoint (region self)]. unfold_client.
    rewrite H1; cbn beta iota; rewrite H2.
    split; [reflexivity|]; split; [reflexivity|]; split; [cbn; lia|];
      apply Hnone; reflexivity. }
  destruct (serialize self endpoint shape) as [e|request] eqn:H3.
  { right. exists e, [EvResolveEndpoint (region self)]. unfold_client.
    rewrite H1; cbn beta iota; rewrite H2; cbn beta iota; rewrite H3.
    split; [reflexivity|]; split; [reflexivity|]; split; [cbn; lia|];
      apply Hnone; reflexivity. }
  destruct (get_credentials self) as [e|creds] eqn:H4.
  { right. exists e, [EvResolveEndpoint (region self); EvGetCredentials].
    unfold_client.
    rewrite H1; cbn beta iota; rewrite H2; cbn beta iota; rewrite H3;
      cbn beta iota; rewrite H4; cbn -[In]. rewrite <- !app_assoc.
    split; [reflexivity|]; split; [reflexivity|]; split; [cbn; lia|];
      apply Hnone; reflexivity. }
  destruct (sign self "transcribe" (region self) request creds)
    as [e|signed_request] eqn:H5.
  { right. exists e, [EvResolveEndpoint (region self); EvGetCredentials].
    unfold_client.
    rewrite H1; cbn beta iota; rewrite H2; cbn beta iota; rewrite H3;
      cbn beta iota; rewrite H4; cbn beta iota; rewrite H5; cbn -[In].
    rewrite <- !app_assoc.
    split; [reflexivity|]; split; [reflexivity|]; split; [cbn; lia|];
      apply Hnone; reflexivity. }
  assert (signed_as self args signed_request) as Hsigned
    by (now exists shape, endpoint, request, creds).
  assert (∀ ev, In ev (handshake_calls self signed_request) → is_send ev = true →
            ∃ sreq, signed_as self args sreq ∧ ev = send_of sreq) as Hsent.
  { intros ev Hin Hs. exists signed_request. split; [exact Hsigned|].
    cbn in Hin. destruct Hin as [<-|[<-|[<-|[<-|[]]]]]; try discriminate.
    reflexivity. }
  destruct (make_request self (uri signed_request) (method signed_request)
              (as_list (headers signed_request)) (body signed_request))
    as [e|response] eqn:H6.
  { right. exists e, [EvResolveEndpoint (region self); EvGetCredentials;
                      send_of signed_request].
    unfold_client.
    rewrite H1; cbn beta iota; rewrite H2; cbn beta iota; rewrite H3;
      cbn beta iota; rewrite H4; cbn beta iota; rewrite H5; cbn beta iota;
      rewrite H6; cbn -[In].
    rewrite <- !app_assoc.
    split; [reflexivity|]; split; [reflexivity|]; split; [cbn; lia|].
    intros ev Hin Hs. apply Hsent; [|exact Hs].
    cbn in Hin |- *. tauto. }
  destruct (resolve_response self response) as [e|resolved_response] eqn:H7.
  { right. exists e, (handshake_calls self signed_request).
    unfold_client.
    rewrite H1; cbn beta iota; rewrite H2; cbn beta iota; rewrite H3;
      cbn beta iota; rewrite H4; cbn beta iota; rewrite H5; cbn beta iota;
      rewrite H6; cbn beta iota; rewrite H7; cbn -[In].
    unfold handshake_calls. rewrite <- !app_assoc.
    split; [reflexivity|]; split; [reflexivity|]; split; [cbn; lia | exact Hsent]. }
  left. exists signed_request, response, resolved_response.
  econstructor; eassumption.
Qed.

(** The run after a resolved handshake, by status. *)
Lemma resolved_run self args signed_request response resolved_response w :
  handshake_resolves self args signed_request response resolved_response →
  run (TranscribeStreamingClient.start_stream_transcription self args) w
  = if 400 <=? status_code resolved_response then
      (World (trace w ++ handshake_calls self signed_request
                ++ [EvBodyClose (body signed_request); EvConsumeBody])
         ({[body signed_request]} ∪ closed w),
       match consume_body self response with
       | Return body_bytes =>
           Raise (parse_exception self resolved_response body_bytes)
       | Raise e => Raise e
       end)
    else if negb (status_code resolved_response =? 200) then
      (after_handshake self signed_request w,
       Raise (RuntimeError ("Unexpected status code encountered: "
                            +:+ Text.str_of_int (status_code resolved_response))))
    else
      match parse_start_stream_transcription_response self resolved_response
              response with
      | Raise e => (after_handshake self signed_request w, Raise e)
      | Return parsed =>
          match TranscribeStreamingClient._extract_signature signed_request with
          | Raise e => (after_handshake self signed_request w, Raise e)
          | Return seed =>
              (World (trace w ++ handshake_calls self signed_request
                        ++ [EvNewAudioStream (body signed_request); EvNewEventStream])
                 (closed w),
               Return {| audio_stream :=
                           {| input_stream := body signed_request;
                              event_signer := _event_signer self;
                              initial_signature := seed;
                              credential_resolver := get_credentials self |};
                         response := parsed |})
          end
      end.
Proof.
  intros H.
  destruct (Z.leb_spec 400 (status_code resolved_response)) as [Hge|Hlt].
  - exact (error_status_outcome _ _ _ _ _ _ H Hge).
  - destruct (Z.eqb_spec (status_code resolved_response) 200) as [Heq|Hne]; cbn.
    + rewrite (status_200_outcome _ _ _ _ _ _ H Heq). cbn zeta.
      destruct (parse_start_stream_transcription_response _ _ _); [reflexivity|].
      destruct (TranscribeStreamingClient._extract_signature _); [reflexivity|].
      cbn [after_handshake trace]. now rewrite <- !app_assoc.
    + exact (unexpected_status_outcome _ _ _ _ _ _ H Hlt Hne).
Qed.

Lemma quiet_counts (calls : list event) :
  forallb is_quiet calls = true →
  count_calls is_close calls = 0%nat
  ∧ count_calls is_drain calls = 0%nat
  ∧ count_calls is_construction calls = 0%nat.
Proof.
  induction calls as [|ev calls IH]; [easy|].
  cbn [forallb count_calls]. intros [Hq Hr]%andb_true_iff.
  destruct (IH Hr) as (-> & -> & ->).
  unfold is_quiet in Hq.
  apply andb_true_iff in Hq as [[Hc Hd]%andb_true_iff Hk].
  apply negb_true_iff in Hc, Hd, Hk. now rewrite Hc, Hd, Hk.
Qed.

(** X1: whatever the collaborators answer, one run of the operation sends
    at most one request and drains at most one response body; nothing is
    retried. *)
Theorem sends_and_drains_at_most_once self args w :
  let out := run (TranscribeStreamingClient.start_stream_transcription self args) w in
  ∃ calls,
    trace (fst out) = trace w ++ calls
    ∧ (count_calls is_send calls ≤ 1)%nat
    ∧ (count_calls is_drain calls ≤ 1)%nat.
Proof.
  intros out. subst out.
  destruct (early_failure_or_resolved self args w)
    as [(sreq & resp & rresp & H) | (e & calls & -> & Hq & Hs & _)].
  - rewrite (resolved_run _ _ _ _ _ _ H).
    destruct (400 <=? status_code rresp);
      [|destruct (negb (status_code rresp =? 200));
        [|destruct (parse_start_stream_transcription_response self rresp resp);
          [|destruct (TranscribeStreamingClient._extract_signature sreq)]]];
      cbn [fst trace after_handshake]; eexists; (split; [reflexivity|]);
      cbn; lia.
  - exists calls. cbn. destruct (quiet_counts _ Hq) as (_ & -> & _).
    repeat split; [exact Hs | lia].
Qed.

(** X2: a run constructs an audio stream and an event stream exactly when it
    returns: a run that raises, at whatever step, has constructed neither,
    and a run that returns has constructed the audio stream of the returned
    stream and then the event stream, as its last two calls. *)
Theorem streams_constructed_exactly_on_return self args w :
  let out := run (TranscribeStreamingClient.start_stream_transcription self args) w in
  ∃ calls,
    trace (fst out) = trace w ++ calls
    ∧ match snd out with
      | Raise _ => count_calls is_construction calls = 0%nat
      | Return stream =>
          ∃ earlier,
            calls = earlier ++ [EvNewAudioStream (input_stream (audio_stream stream));
                                EvNewEventStream]
            ∧ count_calls is_construction earlier = 0%nat
      end.
Proof.
  intros out. subst out.
  destruct (early_failure_or_resolved self args w)
    as [(sreq & resp & rresp & H) | (e & calls & -> & Hq & _)].
  - rewrite (resolved_run _ _ _ _ _ _ H).
    destruct (400 <=? status_code rresp);
      [destruct (consume_body self resp)
      |destruct (negb (status_code rresp =? 200));
        [|destruct (parse_start_stream_transcription_response self rresp resp);
          [|destruct (TranscribeStreamingClient._extract_signature sreq)]]];
      cbn [fst snd trace after_handshake]; eexists; (split; [reflexivity|]);
      try reflexivity.
    exists (handshake_calls self sreq). split; reflexivity.
  - exists calls. cbn. split; [reflexivity|]. now destruct (quiet_counts _ Hq) as (_ & _ & ->).
Qed.

(** X3: a stream is returned only when the handshake resolved with status
    200, the response parsed and the signature decoded; the stream then
    holds the body of the signed request, the event signer and the
    credential resolver of the client, the decoded seed and the parsed
    response, and the body has not been closed. *)
Theorem returned_stream_is_determined self args w stream :
  snd (run (TranscribeStreamingClient.start_stream_transcription self args) w)
  = Return stream →
  ∃ signed_request response resolved_response parsed seed,
    handshake_resolves self args signed_request response resolved_response
    ∧ status_code resolved_response = 200
    ∧ parse_start_stream_transcription_response self resolved_response response
      = Return parsed
    ∧ TranscribeStreamingClient._extract_signature signed_request = Return seed
    ∧ stream = {| audio_stream :=
                    {| input_stream := body signed_request;
                       event_signer := _event_signer self;
                       initial_signature := seed;
                       credential_resolver := get_credentials self |};
                  response := parsed |}
    ∧ closed (fst (run (TranscribeStreamingClient.start_stream_transcription
                          self args) w)) = closed w.
Proof.
  destruct (early_failure_or_resolved self args w)
    as [(sreq & resp & rresp & H) | (e & calls & -> & _)]; [|discriminate].
  rewrite (resolved_run _ _ _ _ _ _ H).
  destruct (Z.leb_spec 400 (status_code rresp)) as [Hge|Hlt];
    [destruct (consume_body self resp); discriminate|].
  destruct (Z.eqb_spec (status_code rresp) 200) as [Heq|Hne]; [|discriminate].
  cbn [negb].
  destruct (parse_start_stream_transcription_response self rresp resp)
    as [e|parsed] eqn:Hp; [discriminate|].
  destruct (TranscribeStreamingClient._extract_signature sreq)
    as [e|seed] eqn:Hx; [discriminate|].
  cbn [fst snd closed]. intros [= <-].
  exists sreq, resp, rresp, parsed, seed. repeat split; assumption.
Qed.

(** X4: a run closes a body only when the handshake resolved with a status
    of 400 or more, and then it is the body of the signed request, closed
    once. *)
Theorem body_closed_only_on_error_status self args w calls :
  trace (fst (run (TranscribeStreamingClient.start_stream_transcription self args) w))
  = trace w ++ calls →
  (0 < count_calls is_close calls)%nat →
  ∃ signed_request response resolved_response,
    handshake_resolves self args signed_request response resolved_response
    ∧ 400 ≤ status_code resolved_response
    ∧ count_calls (is_close_of (body signed_request)) calls = 1%nat
    ∧ count_calls is_close calls = 1%nat
    ∧ closed (fst (run (TranscribeStreamingClient.start_stream_transcription
                          self args) w))
      = {[body signed_request]} ∪ closed w.
Proof.
  destruct (early_failure_or_resolved self args w)
    as [(sreq & resp & rresp & H) | (e & calls' & -> & Hq & _)].
  - rewrite (resolved_run _ _ _ _ _ _ H).
    destruct (Z.leb_spec 400 (status_code rresp)) as [Hge|Hlt].
    + cbn [fst trace closed]. intros <-%app_inv_head _.
      exists sreq, resp, rresp. repeat split; try assumption.
      cbn. now rewrite Nat.eqb_refl.
    + destruct (negb (status_code rresp =? 200));
        [|destruct (parse_start_stream_transcription_response self rresp resp);
          [|destruct (TranscribeStreamingClient._extract_signature sreq)]];
        cbn [fst trace after_handshake]; intros <-%app_inv_head;
        cbn; lia.
  - cbn [fst trace]. intros ->%app_inv_head.
    destruct (quiet_counts _ Hq) as (-> & _). lia.
Qed.

(** X5: a request that the run sends is the signed one: every step up to
    signing returned, and the uri, method, header list and body given to the
    transport are those of the request the signer yielded. *)
Theorem only_the_signed_request_is_sent self args w calls
    (u m : string) (h : list (string * string)) (b : handle) :
  trace (fst (run (TranscribeStreamingClient.start_stream_transcription self args) w))
  = trace w ++ calls →
  In (EvMakeRequest u m h b) calls →
  ∃ signed_request,
    signed_as self args signed_request
    ∧ u = uri signed_request ∧ m = method signed_request
    ∧ h = as_list (headers signed_request) ∧ b = body signed_request.
Proof.
  assert (∀ sreq, EvMakeRequest u m h b = send_of sreq →
            u = uri sreq ∧ m = method sreq
            ∧ h = as_list (headers sreq) ∧ b = body sreq) as Hinj
    by (intros sreq [= -> -> -> ->]; repeat split).
  destruct (early_failure_or_resolved self args w)
    as [(sreq & resp & rresp & H) | (e & calls' & -> & _ & _ & Hs)].
  - rewrite (resolved_run _ _ _ _ _ _ H).
    intros Htr Hin. exists sreq. split; [exact (resolved_is_signed _ _ _ _ _ H)|].
    apply Hinj.
    destruct (400 <=? status_code rresp);
      [|destruct (negb (status_code rresp =? 200));
        [|destruct (parse_start_stream_transcription_response self rresp resp);
          [|destruct (TranscribeStreamingClient._extract_signature sreq)]]];
      cbn [fst trace after_handshake] in Htr; apply app_inv_head in Htr;
      subst calls; unfold handshake_calls in Hin; cbn in Hin;
      repeat (destruct Hin as [Hin|Hin]; [try discriminate; symmetry; exact Hin|]);
      destruct Hin.
  - cbn [fst trace]. intros <-%app_inv_head Hin.
    destruct (Hs _ Hin eq_refl) as (sreq & Hsig & Heq).
    exists sreq. split; [exact Hsig | now apply Hinj].
Qed.

(** X6: when the endpoint cannot be resolved the operation raises the
    resolver's exception after that one call: no credentials are fetched
    and nothing is sent. *)
Theorem endpoint_failure_fetches_no_credentials self args shape e w :
  new_request self args = Return shape →
  resolve self (region self) = Raise e →
  run (TranscribeStreamingClient.start_stream_transcription self args) w
  = (World (trace w ++ [EvResolveEndpoint (region self)]) (closed w), Raise e).
Proof.
  intros H1 H2. unfold_client. now rewrite H1; cbn beta iota; rewrite H2.
Qed.

(** X7: when the credentials cannot be fetched the operation raises the
    credential resolver's exception; the endpoint was resolved and the
    credentials were asked for, and no request is sent. *)
Theorem credential_failure_sends_nothing self args shape endpoint request e w :
  new_request self args = Return shape →
  resolve self (region self) = Return endpoint →
  serialize self endpoint shape = Return request →
  get_credentials self = Raise e →
  run (TranscribeStreamingClient.start_stream_transcription self args) w
  = (World (trace w ++ [EvResolveEndpoint (region self); EvGetCredentials])
       (closed w),
     Raise e).
Proof.
  intros H1 H2 H3 H4. unfold_client.
  rewrite H1; cbn beta iota; rewrite H2; cbn beta iota; rewrite H3;
    cbn beta iota; rewrite H4; cbn.
  now rewrite <- !app_assoc.
Qed.

(** X8: when the sent request never resolves to a response (the transport
    raises while the response is awaited), the operation raises the
    transport's exception and leaves the outbound body open: nothing is
    closed and nothing is drained. *)
Theorem unresolved_response_leaves_body_open self args signed_request response e w :
  signed_as self args signed_request →
  make_request self (uri signed_request) (method signed_request)
    (as_list (headers signed_request)) (body signed_request) = Return response →
  resolve_response self response = Raise e →
  run (TranscribeStreamingClient.start_stream_transcription self args) w
  = (after_handshake self signed_request w, Raise e).
Proof.
  intros (shape & endpoint & request & creds & H1 & H2 & H3 & H4 & H5) H6 H7.
  unfold_client.
  rewrite H1; cbn beta iota; rewrite H2; cbn beta iota; rewrite H3;
    cbn beta iota; rewrite H4; cbn beta iota; rewrite H5; cbn beta iota;
    rewrite H6; cbn beta iota; rewrite H7; cbn.
  unfold after_handshake, handshake_calls. now rewrite <- !app_assoc.
Qed.

(** X9: on a status of 400 or more, when draining the response body raises,
    that exception is the one raised (the response parser is not asked for
    one), and the outbound body has been closed all the same. *)
Theorem drain_failure_is_raised_after_close self args signed_request response
    resolved_response e w :
  handshake_resolves self args signed_request response resolved_response →
  400 ≤ status_code resolved_response →
  consume_body self response = Raise e →
  run (TranscribeStreamingClient.start_stream_transcription self args) w
  = (World (trace w ++ handshake_calls self signed_request
              ++ [EvBodyClose (body signed_request); EvConsumeBody])
       ({[body signed_request]} ∪ closed w),
     Raise e).
Proof.
  intros H Hst Hc. now rewrite (error_status_outcome _ _ _ _ _ _ H Hst), Hc.
Qed.

(** X10: on status 200, when the response parser raises, the operation
    raises that exception whatever the [Authorization] header holds (the
    signature is looked at only afterwards), and the outbound body is left
    open. *)
Theorem parse_failure_leaves_body_open self args signed_request response
    resolved_response e w :
  handshake_resolves self args signed_request response resolved_response →
  status_code resolved_response = 200 →
  parse_start_stream_transcription_response self resolved_response response
  = Raise e →
  run (TranscribeStreamingClient.start_stream_transcription self args) w
  = (after_handshake self signed_request w, Raise e).
Proof.
  intros H Hst Hp. now rewrite (status_200_outcome _ _ _ _ _ _ H Hst), Hp.
Qed.

End Coverage.

(** ** The signature text *)

Lemma hex_pairs_unhexlify (s : string) (bs : bytes) :
  Text.hex_pairs s = Some bs → Text.unhexlify s = Return bs.
Proof.
  intros H.
  assert (valid_hex s = true) as Hv
    by (apply (proj1 (hex_pairs_valid s)); rewrite H; now eexists).
  apply andb_true_iff in Hv as [He Ha].
  unfold Text.unhexlify.
  now rewrite (all_hex_is_ascii _ Ha), (even_not_odd _ He), H.
Qed.

(** Hexadecimal digits do not spell [Signature=]. *)
Lemma all_hex_no_signature (s : string) :
  all_hex s = true → Text.occurs "Signature=" s = false.
Proof.
  unfold all_hex. induction s as [|c s IH]; [reflexivity|].
  cbn [list_ascii_of_string forallb Text.occurs].
  intros [Hc Hs]%andb_true_iff. rewrite (IH Hs), orb_false_r.
  cbn [String.prefix]. destruct (ascii_dec "S" c) as [<-|]; [|reflexivity].
  apply bool_decide_eq_true in Hc as [n Hn]. discriminate.
Qed.

Lemma hexlify_byte (b : byte) :
  let n := Byte.to_N b in
  Text.hex_digit (hex_char (n / 16)) = Some (n / 16)%N
  ∧ Text.hex_digit (hex_char (n mod 16)) = Some (n mod 16)%N
  ∧ Text.hex_digit (upper_hex_char (n / 16)) = Some (n / 16)%N
  ∧ Text.hex_digit (upper_hex_char (n mod 16)) = Some (n mod 16)%N
  ∧ Text.byte_of_N (16 * (n / 16) + n mod 16) = b.
Proof. destruct b; vm_compute; repeat split. Qed.

Lemma hex_pairs_hexlify (bs : bytes) :
  Text.hex_pairs (hexlify bs) = Some bs
  ∧ Text.hex_pairs (hexlify_upper bs) = Some bs.
Proof.
  induction bs as [|b bs [IHl IHu]]; [split; reflexivity|].
  destruct (hexlify_byte b) as (H1 & H2 & H3 & H4 & H5).
  cbn [hexlify hexlify_upper Text.hex_pairs]. cbv zeta.
  rewrite H1, H2, H3, H4, IHl, IHu, H5. split; reflexivity.
Qed.

Lemma valid_hex_all_hex (s : string) : valid_hex s = true → all_hex s = true.
Proof. now intros [_ H]%andb_true_iff. Qed.

Lemma hex_pairs_all_hex (s : string) (bs : bytes) :
  Text.hex_pairs s = Some bs → all_hex s = true.
Proof.
  intros H. apply valid_hex_all_hex, (proj1 (hex_pairs_valid s)).
  rewrite H. now eexists.
Qed.

(** X11: hexadecimal text round trip: when the [Authorization] header ends
    in [Signature=] followed by the hexadecimal text of a byte string, in
    lower or in upper case, [_extract_signature] returns that byte string,
    whatever precedes the last [Signature=]. *)
Theorem extract_signature_inverts_hex signed_request (pre : string) (seed : bytes) :
  authorization signed_request = pre +:+ "Signature=" +:+ hexlify seed
  ∨ authorization signed_request = pre +:+ "Signature=" +:+ hexlify_upper seed →
  TranscribeStreamingClient._extract_signature signed_request = Return seed.
Proof.
  destruct (hex_pairs_hexlify seed) as [Hl Hu].
  intros [Ha|Ha].
  - rewrite (extract_signature_suffix _ _ _ Ha
               (all_hex_no_signature _ (hex_pairs_all_hex _ _ Hl))).
    now apply hex_pairs_unhexlify.
  - rewrite (extract_signature_suffix _ _ _ Ha
               (all_hex_no_signature _ (hex_pairs_all_hex _ _ Hu))).
    now apply hex_pairs_unhexlify.
Qed.

(** X12: every even number of hexadecimal digits after [Signature=] is
    accepted: [_extract_signature] returns a seed, one byte for each pair
    of digits, and the digits cannot hide a later [Signature=]. *)
Theorem valid_signature_is_decoded signed_request (pre sig : string) :
  authorization signed_request = pre +:+ "Signature=" +:+ sig →
  valid_hex sig = true →
  ∃ seed,
    TranscribeStreamingClient._extract_signature signed_request = Return seed
    ∧ Text.hex_pairs sig = Some seed
    ∧ String.length sig = (2 * length seed)%nat.
Proof.
  intros Ha Hv.
  destruct (proj2 (hex_pairs_valid sig) Hv) as [seed Hs].
  exists seed.
  rewrite (extract_signature_suffix _ _ _ Ha
             (all_hex_no_signature _ (valid_hex_all_hex _ Hv))).
  split; [now apply hex_pairs_unhexlify|].
  split; [exact Hs | now apply hex_pairs_length].
Qed.

(** ** Constructed clients *)

Section Constructed.

Context {Endpoint Credentials Pending Parsed Shape MShape Loop : Type}.
Implicit Types (pkg : Package Endpoint Credentials Pending Parsed Shape MShape Loop).

Lemma medical_start_is_inherited_flow
    (med : Client Endpoint Credentials Pending Parsed MedicalArgs MShape)
    (margs : MedicalArgs) :
  TranscribeMedicalStreamingClient.start_stream_transcription med margs
  = TranscribeStreamingClient.start_stream_transcription med margs.
Proof. reflexivity. Qed.

(** Fields of a returned stream. *)
Lemma returned_stream_fields {Args S : Type}
    (self : Client Endpoint Credentials Pending Parsed Args S) args w stream :
  snd (run (TranscribeStreamingClient.start_stream_transcription self args) w)
  = Return stream →
  ∃ signed_request response resolved_response,
    handshake_resolves self args signed_request response resolved_response
    ∧ input_stream (audio_stream stream) = body signed_request
    ∧ event_signer (audio_stream stream) = _event_signer self
    ∧ credential_resolver (audio_stream stream) = get_credentials self.
Proof.
  destruct (early_failure_or_resolved self args w)
    as [(sreq & resp & rresp & H) | (e & calls & -> & _)]; [|discriminate].
  rewrite (resolved_run _ _ _ _ _ _ H).
  destruct (400 <=? status_code rresp);
    [destruct (consume_body self resp); discriminate|].
  destruct (negb (status_code rresp =? 200)); [discriminate|].
  destruct (parse_start_stream_transcription_response self rresp resp);
    [discriminate|].
  destruct (TranscribeStreamingClient._extract_signature sreq); [discriminate|].
  intros [= <-]. exists sreq, resp, rresp. repeat split. exact H.
Qed.

(** X13: a stream returned by a client that [__init__] built signs its
    events for the service [transcribe] in the region given to
    [__init__], and fetches credentials from the resolver given to
    [__init__], or from the CRT resolver on the client's event loop when
    none was given. *)
Theorem constructed_client_hands_on_its_signer_and_resolver pkg
    (region : string) (given_endpoint_resolver : option (string → result Endpoint))
    (given_credential_resolver : option (result Credentials)) args w stream :
  snd (run (TranscribeStreamingClient.start_stream_transcription
              (TranscribeStreamingClient.__init__ pkg region given_endpoint_resolver
                 given_credential_resolver) args) w)
  = Return stream →
  event_signer (audio_stream stream)
  = {| signer_service := "transcribe"; signer_region := region |}
  ∧ credential_resolver (audio_stream stream)
    = match given_credential_resolver with
      | Some given => given
      | None => pkg_crt_credential_resolver pkg (pkg_eventloop pkg)
      end.
Proof.
  intros Hret.
  destruct (returned_stream_fields _ _ _ _ Hret) as (_ & _ & _ & _ & _ & Hs & Hc).
  rewrite Hs, Hc. split; [reflexivity|].
  now destruct given_credential_resolver.
Qed.

(** X14: a stream returned by a medical client that [__init__] built comes
    from a request that the medical request class and the medical
    serializer built, signed for [transcribe] in the region given to
    [__init__]; its audio stream reads the body of that signed request and
    signs for the same service and region. *)
Theorem constructed_medical_client_uses_medical_serializer pkg
    (region : string) (given_endpoint_resolver : option (string → result Endpoint))
    (given_credential_resolver : option (result Credentials)) margs w stream :
  snd (run (TranscribeMedicalStreamingClient.start_stream_transcription
              (TranscribeMedicalStreamingClient.__init__ pkg region given_endpoint_resolver
                 given_credential_resolver) margs) w)
  = Return stream →
  ∃ mshape endpoint request creds signed_request,
    pkg_medical_request pkg margs = Return mshape
    ∧ pkg_medical_serializer pkg endpoint mshape = Return request
    ∧ pkg_signer pkg "transcribe" region request creds = Return signed_request
    ∧ input_stream (audio_stream stream) = body signed_request
    ∧ event_signer (audio_stream stream)
      = {| signer_service := "transcribe"; signer_region := region |}.
Proof.
  rewrite medical_start_is_inherited_flow. intros Hret.
  destruct (returned_stream_fields _ _ _ _ Hret)
    as (sreq & resp & rresp & [mshape ep req creds H1 H2 H3 H4 H5 _ _] & Hb & Hs & _).
  exists mshape, ep, req, creds, sreq. repeat split; assumption.
Qed.

End Constructed.

(** ** The medical operation *)

Section Medical.

Context {Endpoint Credentials Pending Parsed MShape : Type}.
Implicit Types (med : Client Endpoint Credentials Pending Parsed MedicalArgs MShape).
Implicit Types (margs : MedicalArgs) (w : world).

(** X15: the medical operation, on a status of 400 or more, closes the
    outbound request body, then drains the response body, then raises the
    error the response parser builds from the drained bytes. *)
Theorem medical_error_status_closes_before_drain med margs signed_request response
    resolved_response body_bytes w :
  handshake_resolves med margs signed_request response resolved_response →
  400 ≤ status_code resolved_response →
  consume_body med response = Return body_bytes →
  let calls := handshake_calls med signed_request
               ++ [EvBodyClose (body signed_request); EvConsumeBody] in
  run (TranscribeMedicalStreamingClient.start_stream_transcription med margs) w
  = (World (trace w ++ calls) ({[body signed_request]} ∪ closed w),
     Raise (parse_exception med resolved_response body_bytes))
  ∧ before (is_close_of (body signed_request)) is_drain calls = true.
Proof.
  intros H Hst Hbody calls. split.
  - rewrite medical_start_is_inherited_flow.
    now rewrite (error_status_outcome _ _ _ _ _ _ H Hst), Hbody.
  - apply before_close_drain. reflexivity.
Qed.

(** X16: the medical operation, on a status below 400 other than 200,
    raises a [RuntimeError] whose message names the status, and neither
    closes the body nor drains the response. *)
Theorem medical_unexpected_status_raises_runtime_error med margs signed_request
    response resolved_response w :
  handshake_resolves med margs signed_request response resolved_response →
  status_code resolved_response < 400 →
  status_code resolved_response ≠ 200 →
  run (TranscribeMedicalStreamingClient.start_stream_transcription med margs) w
  = (after_handshake med signed_request w,
     Raise (Exn "RuntimeError"
              ("Unexpected status code encountered: "
               +:+ Text.str_of_int (status_code resolved_response)))).
Proof.
  intros H Hlt Hne. rewrite medical_start_is_inherited_flow.
  exact (unexpected_status_outcome _ _ _ _ _ _ H Hlt Hne).
Qed.

(** X17: the medical operation, on status 200 with a parsed response and a
    header whose last [Signature=] is followed by hexadecimal text, returns
    a stream whose audio stream reads the open body of the signed request
    and starts the chain at the decoded signature. *)
Theorem medical_success_hands_over_body_and_seed med margs signed_request pending
    resolved_response parsed (pre sig : string) (seed : bytes) w :
  handshake_resolves med margs signed_request pending resolved_response →
  status_code resolved_response = 200 →
  parse_start_stream_transcription_response med resolved_response pending
  = Return parsed →
  authorization signed_request = pre +:+ "Signature=" +:+ sig →
  Text.occurs "Signature=" sig = false →
  Text.unhexlify sig = Return seed →
  ∃ w' stream,
    run (TranscribeMedicalStreamingClient.start_stream_transcription med margs) w
    = (w', Return stream)
    ∧ closed w' = closed w
    ∧ input_stream (audio_stream stream) = body signed_request
    ∧ initial_signature (audio_stream stream) = seed
    ∧ response stream = parsed.
Proof.
  intros H Hst Hp Ha Ho Hx. rewrite medical_start_is_inherited_flow.
  rewrite (status_200_outcome _ _ _ _ _ _ H Hst), Hp.
  rewrite (extract_signature_suffix _ _ _ Ha Ho), Hx. cbn zeta.
  eexists _, _. repeat split.
Qed.

End Medical.

(** ** The further properties at concrete inputs *)

(** The handshake of a fake client given collaborator by collaborator
    resolves when none of them raises before the response is resolved. *)
Lemma fake_handshake_of (status : Z) (drained : result bytes) (parsed : result unit)
    (auth : option string) :
  handshake_resolves
    (fake_client_of (Return "endpoint") (Return tt) (Return tt)
       (Return (Fake.answer status)) drained parsed auth)
    Fake.plain_args (Fake.signed_with auth) tt (Fake.answer status).
Proof. econstructor; reflexivity. Defined.

(** The handshake of the medical fake client resolves. *)
Lemma fake_medical_handshake (status : Z) (auth : option string) (error_body : bytes) :
  handshake_resolves
    (Fake.client status auth error_body Fake.medical_ctor)
    Fake.medical_args (Fake.signed_with auth) tt (Fake.answer status).
Proof. econstructor; reflexivity. Defined.

(** Status 200 on the fake client: the returned stream is the expected one. *)
Lemma returned_stream_is_determined_witness :
  let self := Fake.client 200 (Some (Fake.sigv4_prefix +:+ "Signature=deadbeef"))
                [] Modelled.StartStreamTranscriptionRequest in
  ∃ signed_request seed,
    TranscribeStreamingClient._extract_signature signed_request = Return seed
    ∧ seed = [xde; xad; xbe; xef]
    ∧ body signed_request = 7%nat.
Proof.
  intros self.
  destruct (returned_stream_is_determined self Fake.plain_args Fake.world0
              {| audio_stream :=
                   {| input_stream := 7%nat;
                      event_signer := _event_signer self;
                      initial_signature := [xde; xad; xbe; xef];
                      credential_resolver := Return tt |};
                 response := tt |})
    as (sreq & resp & rresp & parsed & seed & _ & _ & _ & Hx & Hs & _).
  - vm_compute. reflexivity.
  - exists sreq, seed. injection Hs as Hb Hseed _. repeat split; congruence.
Defined.

(** Status 400 on the fake client: the one close is that of body 7. *)
Lemma body_closed_only_on_error_status_witness :
  let self := Fake.client 400 (Some (Fake.sigv4_prefix +:+ "Signature=deadbeef"))
                Fake.bad_request_body Modelled.StartStreamTranscriptionRequest in
  ∃ signed_request response resolved_response,
    handshake_resolves self Fake.plain_args signed_request response resolved_response
    ∧ 400 ≤ status_code resolved_response.
Proof.
  intros self.
  destruct (body_closed_only_on_error_status self Fake.plain_args Fake.world0
              (handshake_calls self
                 (Fake.signed_with (Some (Fake.sigv4_prefix +:+ "Signature=deadbeef")))
               ++ [EvBodyClose 7%nat; EvConsumeBody]))
    as (sreq & resp & rresp & H & Hst & _).
  - vm_compute. reflexivity.
  - cbn. lia.
  - exists sreq, resp, rresp. split; assumption.
Defined.

(** Status 200 on the fake client: the request sent is the signed one. *)
Lemma only_the_signed_request_is_sent_witness :
  let auth := Some (Fake.sigv4_prefix +:+ "Signature=deadbeef") in
  let self := Fake.client 200 auth [] Modelled.StartStreamTranscriptionRequest in
  ∃ signed_request,
    signed_as self Fake.plain_args signed_request
    ∧ uri (Fake.signed_with auth) = uri signed_request
    ∧ body (Fake.signed_with auth) = body signed_request.
Proof.
  intros auth self.
  destruct (only_the_signed_request_is_sent self Fake.plain_args Fake.world0
              (handshake_calls self (Fake.signed_with auth)
               ++ [EvNewAudioStream 7%nat; EvNewEventStream])
              (uri (Fake.signed_with auth)) (method (Fake.signed_with auth))
              (as_list (headers (Fake.signed_with auth)))
              (body (Fake.signed_with auth)))
    as (sreq & Hs & Hu & _ & _ & Hb).
  - vm_compute. reflexivity.
  - right. right. left. reflexivity.
  - exists sreq. repeat split; assumption.
Defined.

(** An endpoint resolver that raises. *)
Lemma endpoint_failure_fetches_no_credentials_witness :
  let e := ConnectionError "no endpoint" in
  let self := fake_client_of (Raise e) (Return tt) (Return tt)
                (Return (Fake.answer 200)) (Return []) (Return tt) None in
  run (TranscribeStreamingClient.start_stream_transcription self Fake.plain_args)
    Fake.world0
  = (World [EvResolveEndpoint "us-west-2"] ∅, Raise e).
Proof.
  intros e self.
  apply (endpoint_failure_fetches_no_credentials self Fake.plain_args
           Fake.plain_args e Fake.world0); reflexivity.
Defined.

(** A credential resolver that raises. *)
Lemma credential_failure_sends_nothing_witness :
  let e := ConnectionError "no credentials" in
  let self := fake_client_of (Return "endpoint") (Raise e) (Return tt)
                (Return (Fake.answer 200)) (Return []) (Return tt) None in
  run (TranscribeStreamingClient.start_stream_transcription self Fake.plain_args)
    Fake.world0
  = (World [EvResolveEndpoint "us-west-2"; EvGetCredentials] ∅, Raise e).
Proof.
  intros e self.
  apply (credential_failure_sends_nothing self Fake.plain_args
           Fake.plain_args "endpoint" Fake.unsigned_request e Fake.world0);
    reflexivity.
Defined.

(** A transport that raises while the response is awaited. *)
Lemma unresolved_response_leaves_body_open_witness :
  let e := ConnectionError "connection reset" in
  let self := fake_client_of (Return "endpoint") (Return tt) (Return tt)
                (Raise e) (Return []) (Return tt) None in
  run (TranscribeStreamingClient.start_stream_transcription self Fake.plain_args)
    Fake.world0
  = (after_handshake self (Fake.signed_with None) Fake.world0, Raise e).
Proof.
  intros e self.
  apply (unresolved_response_leaves_body_open self Fake.plain_args
           (Fake.signed_with None) tt e Fake.world0); [|reflexivity|reflexivity].
  exists Fake.plain_args, "endpoint", Fake.unsigned_request, tt.
  repeat split; reflexivity.
Defined.

(** Status 500 and a transport that raises while the body is drained. *)
Lemma drain_failure_is_raised_after_close_witness :
  let e := ConnectionError "connection reset" in
  let self := fake_client_of (Return "endpoint") (Return tt) (Return tt)
                (Return (Fake.answer 500)) (Raise e) (Return tt) None in
  snd (run (TranscribeStreamingClient.start_stream_transcription self Fake.plain_args)
         Fake.world0)
  = Raise e.
Proof.
  intros e self.
  rewrite (drain_failure_is_raised_after_close self Fake.plain_args
             (Fake.signed_with None) tt (Fake.answer 500) e Fake.world0
             (fake_handshake_of 500 (Raise e) (Return tt) None)).
  - reflexivity.
  - cbn. lia.
  - reflexivity.
Defined.

(** Status 200, a response parser that raises and a header that would not
    decode either. *)
Lemma parse_failure_leaves_body_open_witness :
  let e := Exn "KeyError" "x-amzn-request-id" in
  let auth := Some (Fake.sigv4_prefix +:+ "Signature=xyz") in
  let self := fake_client_of (Return "endpoint") (Return tt) (Return tt)
                (Return (Fake.answer 200)) (Return []) (Raise e) auth in
  run (TranscribeStreamingClient.start_stream_transcription self Fake.plain_args)
    Fake.world0
  = (after_handshake self (Fake.signed_with auth) Fake.world0, Raise e).
Proof.
  intros e auth self.
  apply (parse_failure_leaves_body_open self Fake.plain_args
           (Fake.signed_with auth) tt (Fake.answer 200) e Fake.world0
           (fake_handshake_of 200 (Return []) (Raise e) auth));
    reflexivity.
Defined.

(** The signature [DEADBEEF] in upper case. *)
Lemma extract_signature_inverts_hex_witness :
  TranscribeStreamingClient._extract_signature
    (Fake.signed_with (Some (Fake.sigv4_prefix +:+ "Signature=DEADBEEF")))
  = Return [xde; xad; xbe; xef].
Proof.
  apply (extract_signature_inverts_hex _ Fake.sigv4_prefix [xde; xad; xbe; xef]).
  right. vm_compute. reflexivity.
Defined.

(** A SHA-256 signature gives thirty-two bytes. *)
Lemma valid_signature_is_decoded_witness :
  ∃ seed,
    TranscribeStreamingClient._extract_signature
      (Fake.signed_with
         (Some (Fake.sigv4_prefix +:+ "Signature=" +:+ Fake.sha256_signature)))
    = Return seed
    ∧ length seed = 32%nat.
Proof.
  destruct (valid_signature_is_decoded
              (Fake.signed_with
                 (Some (Fake.sigv4_prefix +:+ "Signature=" +:+ Fake.sha256_signature)))
              Fake.sigv4_prefix Fake.sha256_signature)
    as (seed & Hx & _ & Hlen).
  - vm_compute. reflexivity.
  - vm_compute. reflexivity.
  - exists seed. split; [exact Hx|]. cbn in Hlen. lia.
Defined.

(** A client constructed without resolvers, in region eu-west-1. *)
Lemma constructed_client_hands_on_its_signer_and_resolver_witness :
  ∃ stream,
    snd (run (TranscribeStreamingClient.start_stream_transcription
                (TranscribeStreamingClient.__init__
                   (fake_package 200 (Some "Signature=deadbeef") [])
                   "eu-west-1" None None)
                Fake.plain_args) Fake.world0)
    = Return stream
    ∧ event_signer (audio_stream stream)
      = {| signer_service := "transcribe"; signer_region := "eu-west-1" |}.
Proof.
  eexists. split; [vm_compute; reflexivity|].
  apply (constructed_client_hands_on_its_signer_and_resolver
           (fake_package 200 (Some "Signature=deadbeef") [])
           "eu-west-1" None None Fake.plain_args Fake.world0).
  vm_compute. reflexivity.
Defined.

(** A medical client constructed with a credential resolver of its own. *)
Lemma constructed_medical_client_uses_medical_serializer_witness :
  ∃ stream,
    snd (run (TranscribeMedicalStreamingClient.start_stream_transcription
                (TranscribeMedicalStreamingClient.__init__
                   (fake_package 200 (Some "Signature=deadbeef") [])
                   "eu-west-1" None (Some (Return tt)))
                Fake.medical_args) Fake.world0)
    = Return stream
    ∧ event_signer (audio_stream stream)
      = {| signer_service := "transcribe"; signer_region := "eu-west-1" |}.
Proof.
  eexists. split; [vm_compute; reflexivity|].
  destruct (constructed_medical_client_uses_medical_serializer
              (fake_package 200 (Some "Signature=deadbeef") [])
              "eu-west-1" None (Some (Return tt)) Fake.medical_args Fake.world0
              {| audio_stream :=
                   {| input_stream := 7%nat;
                      event_signer := {| signer_service := "transcribe";
                                         signer_region := "eu-west-1" |};
                      initial_signature := [xde; xad; xbe; xef];
                      credential_resolver := Return tt |};
                 response := tt |})
    as (_ & _ & _ & _ & _ & _ & _ & _ & _ & Hs).
  - vm_compute. reflexivity.
  - exact Hs.
Defined.

(** Scenario B of the spec on the medical fake client. *)
Lemma medical_error_status_closes_before_drain_witness :
  let self := Fake.client 400 (Some (Fake.sigv4_prefix +:+ "Signature=deadbeef"))
                Fake.bad_request_body Fake.medical_ctor in
  ∃ w',
    run (TranscribeMedicalStreamingClient.start_stream_transcription self
           Fake.medical_args) Fake.world0
    = (w', Raise (Exn "BadRequestException" "bad language code"))
    ∧ before (is_close_of 7%nat) is_drain (trace w') = true.
Proof.
  intros self.
  destruct (medical_error_status_closes_before_drain self Fake.medical_args
              (Fake.signed_with (Some (Fake.sigv4_prefix +:+ "Signature=deadbeef")))
              tt (Fake.answer 400) Fake.bad_request_body Fake.world0)
    as [Hrun Hord].
  - apply fake_medical_handshake.
  - cbn. lia.
  - reflexivity.
  - eexists. split; [exact Hrun | exact Hord].
Defined.

(** Status 204 on the medical fake client. *)
Lemma medical_unexpected_status_raises_runtime_error_witness :
  let self := Fake.client 204 (Some (Fake.sigv4_prefix +:+ "Signature=deadbeef"))
                [] Fake.medical_ctor in
  snd (run (TranscribeMedicalStreamingClient.start_stream_transcription self
              Fake.medical_args) Fake.world0)
  = Raise (Exn "RuntimeError" "Unexpected status code encountered: 204").
Proof.
  intros self.
  rewrite (medical_unexpected_status_raises_runtime_error self Fake.medical_args
             (Fake.signed_with (Some (Fake.sigv4_prefix +:+ "Signature=deadbeef")))
             tt (Fake.answer 204) Fake.world0 (fake_medical_handshake _ _ _)).
  - reflexivity.
  - cbn. lia.
  - cbn. lia.
Defined.

(** Status 200 on the medical fake client. *)
Lemma medical_success_hands_over_body_and_seed_witness :
  let self := Fake.client 200 (Some (Fake.sigv4_prefix +:+ "Signature=deadbeef"))
                [] Fake.medical_ctor in
  ∃ w' stream,
    run (TranscribeMedicalStreamingClient.start_stream_transcription self
           Fake.medical_args) Fake.world0
    = (w', Return stream)
    ∧ closed w' = ∅
    ∧ input_stream (audio_stream stream) = 7%nat
    ∧ initial_signature (audio_stream stream) = [xde; xad; xbe; xef]
    ∧ response stream = tt.
Proof.
  intros self.
  apply (medical_success_hands_over_body_and_seed self Fake.medical_args
           (Fake.signed_with (Some (Fake.sigv4_prefix +:+ "Signature=deadbeef")))
           tt (Fake.answer 200) tt Fake.sigv4_prefix "deadbeef"
           [xde; xad; xbe; xef] Fake.world0 (fake_medical_handshake _ _ _));
    vm_compute; reflexivity.
Defined.
